(** * extract_dicom_metadata.py: a shallow embedding and its specification

    The script reads one DICOM file through pydicom, walks a fixed list of
    attributes, coerces each present attribute to a JSON-safe value, applies
    two heuristics (3-D acquisition, MAGNETOM Sola) and dumps the resulting
    dict as JSON.  Two [except] clauses around the whole body write a
    fallback document instead.

    What is embedded, and how:
    - Python values of attributes are the inductive [pyval]; the built-ins
      [float], [str], iteration, [str.upper] and [in] are functions on it,
      [float] with the rounding of a double and [str.upper] with the
      interpreter's table;
    - the [metadata] dict is an association list in insertion order;
    - [extract_metadata] and the [__main__] block run in a small monad over
      a [world] (installed modules, files, which paths open and which writes
      complete, standard output) whose results are a value, a raised
      exception or [SystemExit]. *)

From Stdlib Require Import ZArith QArith String Ascii List Bool Lia.
From stdpp Require Import base option gmap strings list.

Local Open Scope Z_scope.
Local Open Scope string_scope.

(** ** Python floats *)

Module PyFloat.

(** A Python float is NaN, an infinity, or a finite double, given by its
    sign and by the rational its magnitude denotes, in lowest terms.  The
    sign is kept apart because the zeros [0.0] and [-0.0] differ. *)
Inductive pyfloat :=
| FNaN
| FInf (negative : bool)
| FFin (negative : bool) (magnitude : Q).

Definition is_finite (f : pyfloat) : bool :=
  match f with FFin _ _ => true | _ => false end.

(** The double nearest to [num / den] (for [0 <= num] and [0 < den]), ties
    going to the even mantissa, as the magnitude it denotes; [None] when the
    result is beyond the largest double.  The mantissa has 53 bits, the
    exponent of its last bit is at least -1074 (below that the result is a
    subnormal, or zero) and at most 971. *)
Definition round_to_double (num den : Z) : option Q :=
  if (num =? 0)%Z then Some (0 # 1)
  else
    let k0 := (Z.log2 num - Z.log2 den)%Z in
    let at_least (k : Z) :=
      if (0 <=? k)%Z then (den * 2 ^ k <=? num)%Z else (den <=? num * 2 ^ (- k))%Z in
    let k := if at_least k0 then k0 else (k0 - 1)%Z in
    let q := Z.max (k - 52) (-1074) in
    let '(n, d) :=
      if (0 <=? q)%Z then (num, (den * 2 ^ q)%Z) else ((num * 2 ^ (- q))%Z, den) in
    let quo := (n / d)%Z in
    let rem := (n mod d)%Z in
    let m :=
      if (d <? 2 * rem)%Z then (quo + 1)%Z
      else if (2 * rem =? d)%Z then (quo + quo mod 2)%Z
      else quo in
    if (971 <? q)%Z || ((q =? 971)%Z && (2 ^ 53 <=? m)%Z) then None
    else if (0 <=? q)%Z then Some (inject_Z (m * 2 ^ q))
    else Some (Qred (Qmake m (Z.to_pos (2 ^ (- q))))).

(** The double that the decimal [m * 10^e] reads as, for [0 <= m].  The two
    early answers spare the powers of ten of an exponent far out of range:
    with [m >= 10^(log2 m / 4)] the value is above every double, and with
    [m < 10^((log2 m + 1) / 3 + 1)] it is below half the least subnormal. *)
Definition of_decimal (negative : bool) (m : Z) (e : Z) : pyfloat :=
  if (m =? 0)%Z then FFin negative (0 # 1)
  else if (310 <? e + Z.log2 m / 4)%Z then FInf negative
  else if (e + (Z.log2 m + 1) / 3 + 1 <? -330)%Z then FFin negative (0 # 1)
  else
    let '(num, den) :=
      if (0 <=? e)%Z then ((m * 10 ^ e)%Z, 1%Z) else (m, (10 ^ (- e))%Z) in
    match round_to_double num den with
    | Some q => FFin negative q
    | None => FInf negative
    end.

(** The literal [3.0] of the source. *)
Definition three_point_zero : pyfloat := FFin false (3 # 1).

(** *** The grammar of a float literal

    [sign? (inf | infinity | nan | number exponent?)] between optional
    white space, where letters are matched without regard to case, a
    digit part is [digit (_? digit)*] and a number is
    [digitpart? . digitpart] or [digitpart .?]. *)

(** White space of the C locale: tab, line feed, vertical tab, form feed,
    carriage return and space. *)
Definition is_space (c : ascii) : bool :=
  let n := nat_of_ascii c in
  ((9 <=? n)%nat && (n <=? 13)%nat) || (n =? 32)%nat.

Definition digit_of (c : ascii) : option Z :=
  let n := nat_of_ascii c in
  if ((48 <=? n)%nat && (n <=? 57)%nat) then Some (Z.of_nat n - 48) else None.

Definition lower_ascii (c : ascii) : ascii :=
  let n := nat_of_ascii c in
  if ((65 <=? n)%nat && (n <=? 90)%nat) then ascii_of_nat (n + 32) else c.

Definition upper_ascii (c : ascii) : ascii :=
  let n := nat_of_ascii c in
  if ((97 <=? n)%nat && (n <=? 122)%nat) then ascii_of_nat (n - 32) else c.

Fixpoint lstrip (l : list ascii) : list ascii :=
  match l with
  | c :: l' => if is_space c then lstrip l' else l
  | [] => []
  end.

Definition strip (l : list ascii) : list ascii :=
  rev (lstrip (rev (lstrip l))).

(** The digits that follow a first digit: [acc] is the number read so far,
    [cnt] how many digits it has.  An underscore is consumed only between
    two digits. *)
Fixpoint more_digits (l : list ascii) (acc : Z) (cnt : Z) : Z * Z * list ascii :=
  match l with
  | c :: l' =>
      match digit_of c with
      | Some d => more_digits l' (acc * 10 + d) (cnt + 1)
      | None =>
          if Ascii.eqb c "_"%char then
            match l' with
            | c' :: l'' =>
                match digit_of c' with
                | Some d => more_digits l'' (acc * 10 + d) (cnt + 1)
                | None => (acc, cnt, l)
                end
            | [] => (acc, cnt, l)
            end
          else (acc, cnt, l)
      end
  | [] => (acc, cnt, [])
  end.

(** A digit part continuing the number [acc]; [None] when no digit is there. *)
Definition digitpart (l : list ascii) (acc : Z) : option (Z * Z * list ascii) :=
  match l with
  | c :: l' =>
      match digit_of c with
      | Some d => Some (more_digits l' (acc * 10 + d) 1)
      | None => None
      end
  | [] => None
  end.

Definition take_sign (l : list ascii) : bool * list ascii :=
  match l with
  | c :: l' =>
      if Ascii.eqb c "-"%char then (true, l')
      else if Ascii.eqb c "+"%char then (false, l')
      else (false, l)
  | [] => (false, [])
  end.

(** [number]: the mantissa as an integer and the number of digits after
    the point. *)
Definition number (l : list ascii) : option (Z * Z * list ascii) :=
  match digitpart l 0 with
  | Some (i, _, rest) =>
      match rest with
      | c :: rest' =>
          if Ascii.eqb c "."%char then
            match digitpart rest' i with
            | Some (m, k, rest'') => Some (m, k, rest'')
            | None => Some (i, 0, rest')
            end
          else Some (i, 0, rest)
      | [] => Some (i, 0, [])
      end
  | None =>
      match l with
      | c :: rest' =>
          if Ascii.eqb c "."%char then digitpart rest' 0 else None
      | [] => None
      end
  end.

Definition exponent (l : list ascii) : option (Z * list ascii) :=
  match l with
  | c :: l' =>
      if Ascii.eqb (lower_ascii c) "e"%char then
        let '(neg, l'') := take_sign l' in
        match digitpart l'' 0 with
        | Some (e, _, rest) => Some (if neg then - e else e, rest)
        | None => None
        end
      else None
  | [] => Some (0, [])
  end.

(** The float that a text of one-byte characters reads as: what [float]
    does with a [bytes] object, and with a [str] once its characters beyond
    ASCII are replaced (see [Text.to_ascii]). *)
Definition parse_literal (l : list ascii) : option pyfloat :=
  let '(neg, body) := take_sign (strip l) in
  let low := string_of_list_ascii (List.map lower_ascii body) in
  if String.eqb low "inf" || String.eqb low "infinity" then Some (FInf neg)
  else if String.eqb low "nan" then Some FNaN
  else
    match number body with
    | Some (m, k, rest) =>
        match exponent rest with
        | Some (e, []) => Some (of_decimal neg m (e - k))
        | _ => None
        end
    | None => None
    end.

End PyFloat.
Export PyFloat.

(** ** The characters of a [str]

    A [str] is represented by its UTF-8 encoding: a text of ASCII
    characters is the string itself, and a character beyond ASCII takes two
    to four bytes.  The three tables are those of the interpreter (CPython
    3.11, Unicode 14.0.0): they are no part of the script. *)

Module Text.

Local Open Scope Z_scope.

(** A byte that continues a character begun before it. *)
Definition is_continuation (c : ascii) : bool :=
  let n := nat_of_ascii c in (128 <=? n)%nat && (n <=? 191)%nat.

(** The characters that follow the character [cur] in progress. *)
Fixpoint chars_from (cur : string) (s : string) : list string :=
  match s with
  | EmptyString => [cur]
  | String c s' =>
      if is_continuation c then chars_from (cur +:+ String c EmptyString) s'
      else cur :: chars_from (String c EmptyString) s'
  end.

(** The characters of a text, each as the bytes that encode it. *)
Definition chars (s : string) : list string :=
  match s with
  | EmptyString => []
  | String c s' => chars_from (String c EmptyString) s'
  end.

(** Bytes that all continue a character. *)
Fixpoint continuation_only (s : string) : bool :=
  match s with
  | EmptyString => true
  | String c s' => is_continuation c && continuation_only s'
  end.

(** The bytes of one character: a byte and the bytes that continue it. *)
Definition one_char (ch : string) : bool :=
  match ch with
  | EmptyString => false
  | String _ rest => continuation_only rest
  end.

Definition continuation_bits (c : ascii) : Z := Z.of_nat (nat_of_ascii c) - 128.

(** The code point that the bytes of one character encode; [None] for
    bytes that are no UTF-8 encoding of a character. *)
Definition code_point (ch : string) : option Z :=
  match ch with
  | String b0 rest =>
      let n := Z.of_nat (nat_of_ascii b0) in
      match rest with
      | EmptyString => if (n <? 128) then Some n else None
      | String b1 EmptyString =>
          if ((192 <=? n) && (n <? 224))
          then Some ((n - 192) * 64 + continuation_bits b1)
          else None
      | String b1 (String b2 EmptyString) =>
          if ((224 <=? n) && (n <? 240))
          then Some (((n - 224) * 64 + continuation_bits b1) * 64
                     + continuation_bits b2)
          else None
      | String b1 (String b2 (String b3 EmptyString)) =>
          if ((240 <=? n) && (n <? 248))
          then Some ((((n - 240) * 64 + continuation_bits b1) * 64
                      + continuation_bits b2) * 64 + continuation_bits b3)
          else None
      | _ => None
      end
  | EmptyString => None
  end.

Definition byte (n : Z) : ascii := ascii_of_nat (Z.to_nat n).

(** The bytes that encode a code point. *)
Definition encode (cp : Z) : string :=
  if (cp <? 128) then String (byte cp) EmptyString
  else if (cp <? 2048) then
    String (byte (192 + cp / 64)) (String (byte (128 + cp mod 64)) EmptyString)
  else if (cp <? 65536) then
    String (byte (224 + cp / 4096))
      (String (byte (128 + (cp / 64) mod 64))
         (String (byte (128 + cp mod 64)) EmptyString))
  else
    String (byte (240 + cp / 262144))
      (String (byte (128 + (cp / 4096) mod 64))
         (String (byte (128 + (cp / 64) mod 64))
            (String (byte (128 + cp mod 64)) EmptyString))).

Fixpoint concat_strings (l : list string) : string :=
  match l with
  | [] => EmptyString
  | s :: l' => s +:+ concat_strings l'
  end.

(** *** White space and decimal digits beyond ASCII *)

(** The characters from U+007F on for which [str.isspace] holds. *)
Definition unicode_spaces : list Z :=
  [133; 160; 5760; 8192; 8193; 8194; 8195; 8196; 8197; 8198; 8199; 8200;
   8201; 8202; 8232; 8233; 8239; 8287; 12288].

(** The digit zero of every run of ten decimal digits from U+007F on. *)
Definition unicode_zeros : list Z :=
  [1632; 1776; 1984; 2406; 2534; 2662; 2790; 2918; 3046; 3174; 3302; 3430;
   3558; 3664; 3792; 3872; 4160; 4240; 6112; 6160; 6470; 6608; 6784; 6800;
   6992; 7088; 7232; 7248; 42528; 43216; 43264; 43472; 43504; 43600; 44016;
   65296; 66720; 68912; 69734; 69872; 69942; 70096; 70384; 70736; 70864;
   71248; 71360; 71472; 71904; 72016; 72784; 73040; 73120; 92768; 92864;
   93008; 120782; 120792; 120802; 120812; 120822; 123200; 123632; 125264;
   130032].

Definition is_unicode_space (cp : Z) : bool :=
  existsb (Z.eqb cp) unicode_spaces.

Definition unicode_decimal (cp : Z) : option Z :=
  match List.find (fun z => (z <=? cp) && (cp <? z + 10)) unicode_zeros with
  | Some z => Some (cp - z)
  | None => None
  end.

(** What [float] makes of a [str] before it reads it: an ASCII character
    below U+007F stays, white space becomes a space, a decimal digit becomes
    its ASCII digit, and at any other character the text ends in a question
    mark. *)
Fixpoint to_ascii (chs : list string) : list ascii :=
  match chs with
  | [] => []
  | ch :: chs' =>
      match code_point ch with
      | Some cp =>
          if (cp <? 127) then byte cp :: to_ascii chs'
          else if is_unicode_space cp then " "%char :: to_ascii chs'
          else
            match unicode_decimal cp with
            | Some d => byte (48 + d) :: to_ascii chs'
            | None => ["?"%char]
            end
      | None => ["?"%char]
      end
  end.

(** [float(s)] for a [str] ([unicode = true]) or a [bytes] object. *)
Definition parse_float (unicode : bool) (s : string) : option pyfloat :=
  if unicode then parse_literal (to_ascii (chars s))
  else parse_literal (list_ascii_of_string s).

Arguments parse_float : simpl never.

(** *** Upper case *)

(** The characters beyond ASCII with an upper case of one character, in
    runs [(first, last, step, shift)]: every [step]-th code point from
    [first] to [last] goes to itself plus [shift]. *)
Definition upper_runs : list (Z * Z * Z * Z) :=
  [(181, 181, 1, 743); (224, 246, 1, -32); (248, 254, 1, -32);
   (255, 255, 1, 121); (257, 303, 2, -1); (305, 305, 1, -232);
   (307, 311, 2, -1); (314, 328, 2, -1); (331, 375, 2, -1);
   (378, 382, 2, -1); (383, 383, 1, -300); (384, 384, 1, 195);
   (387, 389, 2, -1); (392, 392, 1, -1); (396, 396, 1, -1);
   (402, 402, 1, -1); (405, 405, 1, 97); (409, 409, 1, -1);
   (410, 410, 1, 163); (414, 414, 1, 130); (417, 421, 2, -1);
   (424, 424, 1, -1); (429, 429, 1, -1); (432, 432, 1, -1);
   (436, 438, 2, -1); (441, 441, 1, -1); (445, 445, 1, -1);
   (447, 447, 1, 56); (453, 453, 1, -1); (454, 454, 1, -2);
   (456, 456, 1, -1); (457, 457, 1, -2); (459, 459, 1, -1);
   (460, 460, 1, -2); (462, 476, 2, -1); (477, 477, 1, -79);
   (479, 495, 2, -1); (498, 498, 1, -1); (499, 499, 1, -2);
   (501, 501, 1, -1); (505, 543, 2, -1); (547, 563, 2, -1);
   (572, 572, 1, -1); (575, 576, 1, 10815); (578, 578, 1, -1);
   (583, 591, 2, -1); (592, 592, 1, 10783); (593, 593, 1, 10780);
   (594, 594, 1, 10782); (595, 595, 1, -210); (596, 596, 1, -206);
   (598, 599, 1, -205); (601, 601, 1, -202); (603, 603, 1, -203);
   (604, 604, 1, 42319); (608, 608, 1, -205); (609, 609, 1, 42315);
   (611, 611, 1, -207); (613, 613, 1, 42280); (614, 614, 1, 42308);
   (616, 616, 1, -209); (617, 617, 1, -211); (618, 618, 1, 42308);
   (619, 619, 1, 10743); (620, 620, 1, 42305); (623, 623, 1, -211);
   (625, 625, 1, 10749); (626, 626, 1, -213); (629, 629, 1, -214);
   (637, 637, 1, 10727); (640, 640, 1, -218); (642, 642, 1, 42307);
   (643, 643, 1, -218); (647, 647, 1, 42282); (648, 648, 1, -218);
   (649, 649, 1, -69); (650, 651, 1, -217); (652, 652, 1, -71);
   (658, 658, 1, -219); (669, 669, 1, 42261); (670, 670, 1, 42258);
   (837, 837, 1, 84); (881, 883, 2, -1); (887, 887, 1, -1);
   (891, 893, 1, 130); (940, 940, 1, -38); (941, 943, 1, -37);
   (945, 961, 1, -32); (962, 962, 1, -31); (963, 971, 1, -32);
   (972, 972, 1, -64); (973, 974, 1, -63); (976, 976, 1, -62);
   (977, 977, 1, -57); (981, 981, 1, -47); (982, 982, 1, -54);
   (983, 983, 1, -8); (985, 1007, 2, -1); (1008, 1008, 1, -86);
   (1009, 1009, 1, -80); (1010, 1010, 1, 7); (1011, 1011, 1, -116);
   (1013, 1013, 1, -96); (1016, 1016, 1, -1); (1019, 1019, 1, -1);
   (1072, 1103, 1, -32); (1104, 1119, 1, -80); (1121, 1153, 2, -1);
   (1163, 1215, 2, -1); (1218, 1230, 2, -1); (1231, 1231, 1, -15);
   (1233, 1327, 2, -1); (1377, 1414, 1, -48); (4304, 4346, 1, 3008);
   (4349, 4351, 1, 3008); (5112, 5117, 1, -8); (7296, 7296, 1, -6254);
   (7297, 7297, 1, -6253); (7298, 7298, 1, -6244); (7299, 7300, 1, -6242);
   (7301, 7301, 1, -6243); (7302, 7302, 1, -6236); (7303, 7303, 1, -6181);
   (7304, 7304, 1, 35266); (7545, 7545, 1, 35332); (7549, 7549, 1, 3814);
   (7566, 7566, 1, 35384); (7681, 7829, 2, -1); (7835, 7835, 1, -59);
   (7841, 7935, 2, -1); (7936, 7943, 1, 8); (7952, 7957, 1, 8);
   (7968, 7975, 1, 8); (7984, 7991, 1, 8); (8000, 8005, 1, 8);
   (8017, 8023, 2, 8); (8032, 8039, 1, 8); (8048, 8049, 1, 74);
   (8050, 8053, 1, 86); (8054, 8055, 1, 100); (8056, 8057, 1, 128);
   (8058, 8059, 1, 112); (8060, 8061, 1, 126); (8112, 8113, 1, 8);
   (8126, 8126, 1, -7205); (8144, 8145, 1, 8); (8160, 8161, 1, 8);
   (8165, 8165, 1, 7); (8526, 8526, 1, -28); (8560, 8575, 1, -16);
   (8580, 8580, 1, -1); (9424, 9449, 1, -26); (11312, 11359, 1, -48);
   (11361, 11361, 1, -1); (11365, 11365, 1, -10795);
   (11366, 11366, 1, -10792); (11368, 11372, 2, -1); (11379, 11379, 1, -1);
   (11382, 11382, 1, -1); (11393, 11491, 2, -1); (11500, 11502, 2, -1);
   (11507, 11507, 1, -1); (11520, 11557, 1, -7264);
   (11559, 11559, 1, -7264); (11565, 11565, 1, -7264);
   (42561, 42605, 2, -1); (42625, 42651, 2, -1); (42787, 42799, 2, -1);
   (42803, 42863, 2, -1); (42874, 42876, 2, -1); (42879, 42887, 2, -1);
   (42892, 42892, 1, -1); (42897, 42899, 2, -1); (42900, 42900, 1, 48);
   (42903, 42921, 2, -1); (42933, 42947, 2, -1); (42952, 42954, 2, -1);
   (42961, 42961, 1, -1); (42967, 42969, 2, -1); (42998, 42998, 1, -1);
   (43859, 43859, 1, -928); (43888, 43967, 1, -38864);
   (65345, 65370, 1, -32); (66600, 66639, 1, -40); (66776, 66811, 1, -40);
   (66967, 67003, 2, -39); (66968, 66976, 2, -39); (66980, 66992, 2, -39);
   (66996, 67000, 2, -39); (67004, 67004, 1, -39); (68800, 68850, 1, -64);
   (71872, 71903, 1, -32); (93792, 93823, 1, -32); (125218, 125251, 1, -34)].

(** The characters whose upper case has several characters. *)
Definition upper_special : list (Z * list Z) :=
  [(223, [83; 83]); (329, [700; 78]); (496, [74; 780]);
   (912, [921; 776; 769]); (944, [933; 776; 769]); (1415, [1333; 1362]);
   (7830, [72; 817]); (7831, [84; 776]); (7832, [87; 778]);
   (7833, [89; 778]); (7834, [65; 702]); (8016, [933; 787]);
   (8018, [933; 787; 768]); (8020, [933; 787; 769]);
   (8022, [933; 787; 834]); (8064, [7944; 921]); (8065, [7945; 921]);
   (8066, [7946; 921]); (8067, [7947; 921]); (8068, [7948; 921]);
   (8069, [7949; 921]); (8070, [7950; 921]); (8071, [7951; 921]);
   (8072, [7944; 921]); (8073, [7945; 921]); (8074, [7946; 921]);
   (8075, [7947; 921]); (8076, [7948; 921]); (8077, [7949; 921]);
   (8078, [7950; 921]); (8079, [7951; 921]); (8080, [7976; 921]);
   (8081, [7977; 921]); (8082, [7978; 921]); (8083, [7979; 921]);
   (8084, [7980; 921]); (8085, [7981; 921]); (8086, [7982; 921]);
   (8087, [7983; 921]); (8088, [7976; 921]); (8089, [7977; 921]);
   (8090, [7978; 921]); (8091, [7979; 921]); (8092, [7980; 921]);
   (8093, [7981; 921]); (8094, [7982; 921]); (8095, [7983; 921]);
   (8096, [8040; 921]); (8097, [8041; 921]); (8098, [8042; 921]);
   (8099, [8043; 921]); (8100, [8044; 921]); (8101, [8045; 921]);
   (8102, [8046; 921]); (8103, [8047; 921]); (8104, [8040; 921]);
   (8105, [8041; 921]); (8106, [8042; 921]); (8107, [8043; 921]);
   (8108, [8044; 921]); (8109, [8045; 921]); (8110, [8046; 921]);
   (8111, [8047; 921]); (8114, [8122; 921]); (8115, [913; 921]);
   (8116, [902; 921]); (8118, [913; 834]); (8119, [913; 834; 921]);
   (8124, [913; 921]); (8130, [8138; 921]); (8131, [919; 921]);
   (8132, [905; 921]); (8134, [919; 834]); (8135, [919; 834; 921]);
   (8140, [919; 921]); (8146, [921; 776; 768]); (8147, [921; 776; 769]);
   (8150, [921; 834]); (8151, [921; 776; 834]); (8162, [933; 776; 768]);
   (8163, [933; 776; 769]); (8164, [929; 787]); (8166, [933; 834]);
   (8167, [933; 776; 834]); (8178, [8186; 921]); (8179, [937; 921]);
   (8180, [911; 921]); (8182, [937; 834]); (8183, [937; 834; 921]);
   (8188, [937; 921]); (64256, [70; 70]); (64257, [70; 73]);
   (64258, [70; 76]); (64259, [70; 70; 73]); (64260, [70; 70; 76]);
   (64261, [83; 84]); (64262, [83; 84]); (64275, [1348; 1350]);
   (64276, [1348; 1333]); (64277, [1348; 1339]); (64278, [1358; 1350]);
   (64279, [1348; 1341])].

Definition in_run (cp : Z) (run : Z * Z * Z * Z) : bool :=
  let '(first, last, step, _) := run in
  (first <=? cp) && (cp <=? last) && ((cp - first) mod step =? 0).

(** The upper case of a code point beyond ASCII, when it has one that
    differs from it. *)
Definition upper_code_points (cp : Z) : option (list Z) :=
  match List.find (fun entry => Z.eqb (fst entry) cp) upper_special with
  | Some (_, cps) => Some cps
  | None =>
      match List.find (in_run cp) upper_runs with
      | Some (_, _, _, shift) => Some [cp + shift]
      | None => None
      end
  end.

(** The upper case of one character. *)
Definition upper_char (ch : string) : string :=
  match ch with
  | String c EmptyString => String (upper_ascii c) EmptyString
  | _ =>
      match code_point ch with
      | Some cp =>
          match upper_code_points cp with
          | Some cps => concat_strings (List.map encode cps)
          | None => ch
          end
      | None => ch
      end
  end.

(** [s.upper()]. *)
Definition upper (s : string) : string :=
  concat_strings (List.map upper_char (chars s)).

Arguments upper : simpl never.


End Text.
Export Text.

(** ** Python values carried by the attributes of a decoded record *)

Module PyValue.

(** The values the script can meet, told apart by what it asks of them:
    [isinstance] against [str] and [bytes], [hasattr(v, '__iter__')],
    [float(v)], [str(v)] and iteration.
    - [VNum f text] is any number object (int, float, pydicom's DSfloat or
      IS): [float] gives [f], [str] gives [text];
    - [VSeq items text] is an iterable that is neither [str], [bytes] nor
      [dict] (a list, pydicom's MultiValue): [str] gives [text].
    The text of a [str] is its UTF-8 encoding (see [Text]); a [bytes]
    object is its bytes. *)
#[warnings="-register-all"]
Inductive pyval :=
| VStr (s : string)
| VBytes (b : string)
| VNum (f : pyfloat) (text : string)
| VNone
| VSeq (items : list pyval) (text : string).

(** The two exceptions that [float] raises on a value it cannot convert. *)
Inductive conv_error := ValueError | TypeError.

(** [float(v)]: a string or a bytes object is parsed, a number converts,
    anything else is a [TypeError]. *)
Definition py_float (v : pyval) : conv_error + pyfloat :=
  match v with
  | VStr s =>
      match parse_float true s with Some f => inr f | None => inl ValueError end
  | VBytes b =>
      match parse_float false b with Some f => inr f | None => inl ValueError end
  | VNum f _ => inr f
  | VNone | VSeq _ _ => inl TypeError
  end.

Definition hex_digit (n : nat) : ascii :=
  if (n <? 10)%nat then ascii_of_nat (48 + n) else ascii_of_nat (87 + n).

(** One byte inside [repr(<bytes>)] quoted with [quote]. *)
Definition repr_byte (quote : ascii) (c : ascii) : string :=
  let n := nat_of_ascii c in
  if Ascii.eqb c "\"%char then "\\"
  else if Ascii.eqb c quote then String "\"%char (String c EmptyString)
  else if (n =? 9)%nat then "\t"
  else if (n =? 10)%nat then "\n"
  else if (n =? 13)%nat then "\r"
  else if ((n <? 32) || (127 <=? n))%nat then
    String "\"%char (String "x"%char
      (String (hex_digit (n / 16)) (String (hex_digit (n mod 16)) EmptyString)))
  else String c EmptyString.

Fixpoint has_char (c : ascii) (s : string) : bool :=
  match s with
  | EmptyString => false
  | String c' s' => Ascii.eqb c c' || has_char c s'
  end.

Fixpoint concat_map (f : ascii -> string) (s : string) : string :=
  match s with
  | EmptyString => EmptyString
  | String c s' => f c +:+ concat_map f s'
  end.

Definition double_quote : ascii := ascii_of_nat 34.

(** [repr(b)] for bytes: double quotes only when the bytes hold a single
    quote and no double quote. *)
Definition repr_bytes (b : string) : string :=
  let quote :=
    if has_char "'"%char b && negb (has_char double_quote b)
    then double_quote else "'"%char in
  String "b"%char (String quote (concat_map (repr_byte quote) b +:+ String quote EmptyString)).

(** [str(v)]. *)
Definition py_str (v : pyval) : string :=
  match v with
  | VStr s => s
  | VBytes b => repr_bytes b
  | VNum _ text => text
  | VNone => "None"
  | VSeq _ text => text
  end.

Fixpoint decimal_digits (fuel : nat) (n : nat) (acc : string) : string :=
  match fuel with
  | O => acc
  | S fuel' =>
      let acc' := String (ascii_of_nat (48 + n mod 10)) acc in
      if (n <? 10)%nat then acc' else decimal_digits fuel' (n / 10) acc'
  end.

(** [for x in v]: the items of a sequence, the one-character strings of a
    string, the integers of a bytes object; [None] is the [TypeError] of a
    value that is not iterable. *)
Definition py_iter (v : pyval) : option (list pyval) :=
  match v with
  | VSeq items _ => Some items
  | VStr s => Some (List.map VStr (chars s))
  | VBytes b =>
      Some (List.map
              (fun c => let n := nat_of_ascii c in
                        VNum (FFin false (inject_Z (Z.of_nat n))) (decimal_digits 3 n ""))
              (list_ascii_of_string b))
  | VNum _ _ | VNone => None
  end.

(** [pat in s]. *)
Fixpoint contains (pat s : string) : bool :=
  String.prefix pat s ||
  match s with
  | EmptyString => false
  | String _ s' => contains pat s'
  end.

End PyValue.
Export PyValue.

(** ** JSON-ready values and the [metadata] dict *)

Module Metadata.

(** What ends up as a value of the dumped dict: a float, the integer
    literal of the fallback documents, a string, [True], or a list. *)
#[warnings="-register-all"]
Inductive jval :=
| JFloat (f : pyfloat)
| JInt (z : Z)
| JStr (s : string)
| JBool (b : bool)
| JList (items : list jval).

(** A dict with string keys, in insertion order. *)
Definition dict := list (string * jval).

(** [d[key] = value]: an existing key keeps its place. *)
Fixpoint dict_set (key : string) (value : jval) (d : dict) : dict :=
  match d with
  | [] => [(key, value)]
  | (k, v) :: d' =>
      if String.eqb k key then (k, value) :: d'
      else (k, v) :: dict_set key value d'
  end.

Fixpoint dict_get (key : string) (d : dict) : option jval :=
  match d with
  | [] => None
  | (k, v) :: d' => if String.eqb k key then Some v else dict_get key d'
  end.

Definition has_key (key : string) (d : dict) : bool :=
  match dict_get key d with Some _ => true | None => false end.

(** [safe_value] of the source (lines 27-38). *)
Fixpoint safe_value (value : pyval) : jval :=
  match value with
  | VSeq items _ => JList (List.map safe_value items)
  | VBytes _ => JStr (py_str value)
  | _ =>
      match py_float value with
      | inr f => JFloat f
      | inl _ => JStr (py_str value)
      end
  end.

(** [[float(x) for x in items]]; [None] when a conversion raises. *)
Fixpoint floats_of (items : list pyval) : option (list pyfloat) :=
  match items with
  | [] => Some []
  | x :: items' =>
      match py_float x with
      | inr f =>
          match floats_of items' with
          | Some fs => Some (f :: fs)
          | None => None
          end
      | inl _ => None
      end
  end.

(** Whether [json.dump] writes a number token of the JSON grammar for
    every float in the value: with its default [allow_nan=True] it writes
    [NaN], [Infinity] and [-Infinity] for the other floats. *)
Fixpoint json_valid (v : jval) : bool :=
  match v with
  | JFloat f => is_finite f
  | JList items => forallb json_valid items
  | JInt _ | JStr _ | JBool _ => true
  end.

Definition dict_valid (d : dict) : bool :=
  forallb (fun kv => json_valid (snd kv)) d.

End Metadata.
Export Metadata.

(** ** The world the script runs in, and its effects *)

Module Effects.

(** A decoded record: attribute name to value; [hasattr(dcm, name)] is
    whether the lookup succeeds. *)
Abbreviation dataset := (gmap string pyval).

(** A regular file, by what the script can do with it:
    - [Dicom dcm]: [pydicom.dcmread] returns [dcm];
    - [Corrupt msg]: [pydicom.dcmread] raises an exception whose [str] is [msg];
    - [Json doc]: the text that [json.dump(doc, f, indent=2)] wrote;
    - [Partial doc]: what is left when the file was opened for writing, and
      so emptied, and the writing of [doc] raised: nothing, or a text that
      is cut short. *)
Inductive file :=
| Dicom (dcm : dataset)
| Corrupt (msg : string)
| Json (doc : dict)
| Partial (doc : dict).

Record world := World {
  pydicom_installed : bool;
  (** the regular files, each under the one path that names it: two paths
      to one file (a link, a relative and an absolute name) are outside
      this model *)
  files : gmap string file;
  (** [open(path, 'w')]: [None] when it succeeds, the message of the
      [OSError] when it raises *)
  open_error : string -> option string;
  (** [json.dump(doc, f, indent=2)] and the closing of [f], on a path that
      opened: [None] when the whole text reaches the file, the message of
      the exception otherwise (a full disk, a device that takes no data) *)
  write_error : string -> dict -> option string;
  stdout : list string
}.

Inductive exn :=
| ImportError (msg : string)
| Exception (msg : string).

Inductive result (A : Type) :=
| Ok (a : A)
| Raise (e : exn)
| SystemExit (code : Z).
Arguments Ok {A} a.
Arguments Raise {A} e.
Arguments SystemExit {A} code.

Definition M (A : Type) : Type := world -> result A * world.

Definition ret {A} (a : A) : M A := fun w => (Ok a, w).

Definition bind {A B} (m : M A) (k : A -> M B) : M B :=
  fun w =>
    match m w with
    | (Ok a, w') => k a w'
    | (Raise e, w') => (Raise e, w')
    | (SystemExit c, w') => (SystemExit c, w')
    end.

(** [exit(code)] and [sys.exit(code)]. *)
Definition sys_exit {A} (code : Z) : M A := fun w => (SystemExit code, w).

(** [try: body / except ImportError as e: ... / except Exception as e: ...];
    each handler receives [str(e)].  [SystemExit] is not an [Exception],
    and what a handler raises is not caught by the other one. *)
Definition try_except {A} (body : M A)
    (on_import_error : string -> M A) (on_exception : string -> M A) : M A :=
  fun w =>
    match body w with
    | (Raise (ImportError msg), w') => on_import_error msg w'
    | (Raise (Exception msg), w') => on_exception msg w'
    | r => r
    end.

Definition print (line : string) : M unit :=
  fun w =>
    (Ok tt, {| pydicom_installed := pydicom_installed w;
               files := files w;
               open_error := open_error w;
               write_error := write_error w;
               stdout := stdout w ++ [line] |}).

Fixpoint print_all (lines : list string) : M unit :=
  match lines with
  | [] => ret tt
  | line :: lines' => bind (print line) (fun _ => print_all lines')
  end.

Definition import_error_message : string := "No module named 'pydicom'".

(** [import pydicom]. *)
Definition import_pydicom : M unit :=
  fun w =>
    if pydicom_installed w then (Ok tt, w)
    else (Raise (ImportError import_error_message), w).

Definition not_dicom_message : string :=
  "File is missing DICOM File Meta Information header or the 'DICM' prefix is missing from the header. Use force=True to force reading.".

(** [pydicom.dcmread(path)]. *)
Definition dcmread (path : string) : M dataset :=
  fun w =>
    match files w !! path with
    | Some (Dicom dcm) => (Ok dcm, w)
    | Some (Corrupt msg) => (Raise (Exception msg), w)
    | Some (Json _) | Some (Partial _) => (Raise (Exception not_dicom_message), w)
    | None =>
        (Raise (Exception ("[Errno 2] No such file or directory: '" +:+ path +:+ "'")), w)
    end.

(** The world in which [path] holds [content]. *)
Definition with_file (w : world) (path : string) (content : file) : world :=
  {| pydicom_installed := pydicom_installed w;
     files := <[path := content]> (files w);
     open_error := open_error w;
     write_error := write_error w;
     stdout := stdout w |}.

(** [with open(path, 'w') as f: json.dump(doc, f, indent=2)].  When [open]
    raises nothing has changed; once it has returned the file is empty, and
    an exception of the writing or of the closing leaves it incomplete. *)
Definition json_dump_to (path : string) (doc : dict) : M unit :=
  fun w =>
    match open_error w path with
    | Some msg => (Raise (Exception msg), w)
    | None =>
        match write_error w path doc with
        | Some msg => (Raise (Exception msg), with_file w path (Partial doc))
        | None => (Ok tt, with_file w path (Json doc))
        end
    end.


End Effects.
Export Effects.

Notation "x <- m ;; k" := (bind m (fun x => k))
  (at level 100, m at next level, right associativity).
Notation "m ;;; k" := (bind m (fun _ => k))
  (at level 100, right associativity).

(** ** The script *)

Module Script.

(** [if hasattr(dcm, attr): metadata[key] = safe_value(dcm.<attr>)]. *)
Definition set_safe (dcm : dataset) (attr key : string) (metadata : dict) : dict :=
  match dcm !! attr with
  | Some value => dict_set key (safe_value value) metadata
  | None => metadata
  end.

(** [if hasattr(dcm, attr): try: metadata[key] = float(dcm.<attr>) / except: pass]. *)
Definition set_float (dcm : dataset) (attr key : string) (metadata : dict) : dict :=
  match dcm !! attr with
  | Some value =>
      match py_float value with
      | inr f => dict_set key (JFloat f) metadata
      | inl _ => metadata
      end
  | None => metadata
  end.

Definition field_strength_warning : string :=
  "WARN: MagneticFieldStrength not present. Default of 3.0 being applied".

(** Lines 45-50; the second component is what the step prints. *)
Definition set_field_strength (dcm : dataset) (metadata : dict) : dict * list string :=
  match dcm !! "MagneticFieldStrength" with
  | Some value =>
      match py_float value with
      | inr f => (dict_set "fieldStrength" (JFloat f) metadata, [])
      | inl _ =>
          (dict_set "fieldStrength" (JFloat three_point_zero) metadata,
           [field_strength_warning])
      end
  | None => (metadata, [])
  end.

(** ['3D' in s or 'MPRAGE' in s or 'SPACE' in s]. *)
Definition names_3d (s : string) : bool :=
  contains "3D" s || contains "MPRAGE" s || contains "SPACE" s.

(** Lines 69-89: the private flag, then the two name checks. *)
Definition detect_3d (dcm : dataset) (metadata : dict) : dict :=
  let metadata :=
    match dcm !! "Private_0019_10e0" with
    | Some _ => dict_set "is3D" (JBool true) metadata
    | None => metadata
    end in
  let is_3d := false in
  let is_3d :=
    match dcm !! "SeriesDescription" with
    | Some value =>
        let desc := upper (py_str value) in
        if names_3d desc then true else is_3d
    | None => is_3d
    end in
  let is_3d :=
    match dcm !! "SequenceName" with
    | Some value =>
        let seq := upper (py_str value) in
        if names_3d seq then true else is_3d
    | None => is_3d
    end in
  if is_3d then dict_set "is3D" (JBool true) metadata else metadata.

(** Lines 119-123. *)
Definition set_pixel_spacing (dcm : dataset) (metadata : dict) : dict :=
  match dcm !! "PixelSpacing" with
  | Some value =>
      match py_iter value with
      | Some items =>
          match floats_of items with
          | Some fs => dict_set "pixelSpacing" (JList (List.map JFloat fs)) metadata
          | None => metadata
          end
      | None => metadata
      end
  | None => metadata
  end.

(** Lines 126-127. *)
Definition set_magnetom_sola (dcm : dataset) (metadata : dict) : dict :=
  match dcm !! "ManufacturerModelName" with
  | Some value =>
      if contains "MAGNETOM Sola" (py_str value)
      then dict_set "isMagnetomSola" (JBool true) metadata
      else metadata
  | None => metadata
  end.

(** Lines 24-127: the dict built from a decoded record, with the lines
    printed on the way. *)
Definition extract_fields (dcm : dataset) : dict * list string :=
  let metadata : dict := [] in
  (* Basic scanner information *)
  let metadata := set_safe dcm "Manufacturer" "manufacturer" metadata in
  let metadata := set_safe dcm "ManufacturerModelName" "modelName" metadata in
  let '(metadata, printed) := set_field_strength dcm metadata in
  (* Sequence information *)
  let metadata := set_safe dcm "ProtocolName" "protocolName" metadata in
  let metadata := set_safe dcm "SeriesDescription" "seriesDescription" metadata in
  let metadata := set_safe dcm "SequenceName" "sequenceName" metadata in
  let metadata := set_safe dcm "ScanningSequence" "scanningSequence" metadata in
  let metadata := set_safe dcm "SequenceVariant" "sequenceVariant" metadata in
  (* Additional fields for 3D sequence detection *)
  let metadata := set_safe dcm "ImageType" "imageType" metadata in
  let metadata := set_safe dcm "MRAcquisitionType" "acquisitionType" metadata in
  let metadata := detect_3d dcm metadata in
  (* Acquisition parameters *)
  let metadata := set_float dcm "SliceThickness" "sliceThickness" metadata in
  let metadata := set_float dcm "RepetitionTime" "TR" metadata in
  let metadata := set_float dcm "EchoTime" "TE" metadata in
  let metadata := set_float dcm "FlipAngle" "flipAngle" metadata in
  let metadata := set_float dcm "SpacingBetweenSlices" "spacingBetweenSlices" metadata in
  (* Pixel dimensions *)
  let metadata := set_pixel_spacing dcm metadata in
  (* Special case for Siemens MAGNETOM Sola *)
  let metadata := set_magnetom_sola dcm metadata in
  (metadata, printed).

(** The document of lines 141-146. *)
Definition import_fallback : dict :=
  [("manufacturer", JStr "Unknown");
   ("fieldStrength", JInt 3);
   ("modelName", JStr "Unknown");
   ("error", JStr "pydicom module not installed")].

(** The document of lines 155-160. *)
Definition error_fallback (message : string) : dict :=
  [("manufacturer", JStr "Unknown");
   ("fieldStrength", JInt 3);
   ("modelName", JStr "Unknown");
   ("error", JStr message)].

(** The [try] block, lines 17-135. *)
Definition extract_body (dicom_path output_path : string) : M Z :=
  import_pydicom ;;;
  print ("Reading DICOM file: " +:+ dicom_path) ;;;
  dcm <- dcmread dicom_path ;;
  print "Successfully read DICOM file" ;;;
  let '(metadata, printed) := extract_fields dcm in
  print_all printed ;;;
  print ("Writing metadata to: " +:+ output_path) ;;;
  json_dump_to output_path metadata ;;;
  print "SUCCESS" ;;;
  ret 0.

(** [except ImportError as e], lines 137-148. *)
Definition on_import_error (output_path : string) (e : string) : M Z :=
  print ("ImportError: " +:+ e) ;;;
  json_dump_to output_path import_fallback ;;;
  print "extract_dicom_metadata.py: FATAL: PYDICOM_NOT_FOUND" ;;;
  sys_exit 1.

(** [except Exception as e], lines 151-162. *)
Definition on_exception (output_path : string) (e : string) : M Z :=
  print ("Error: " +:+ e) ;;;
  json_dump_to output_path (error_fallback e) ;;;
  print ("ERROR: " +:+ e) ;;;
  ret 2.

(** [extract_metadata(dicom_path, output_path)]. *)
Definition extract_metadata (dicom_path output_path : string) : M Z :=
  try_except (extract_body dicom_path output_path)
    (on_import_error output_path) (on_exception output_path).


(** The status the interpreter ends with: the argument of [SystemExit],
    1 after an exception nobody caught, 0 otherwise. *)
Definition exit_status {A} (r : result A) : Z :=
  match r with
  | Ok _ => 0
  | Raise _ => 1
  | SystemExit code => code
  end.

End Script.
Export Script.

(** ** Vocabulary of the specification *)

Module Spec.

(** The record a run decodes, the dict it dumps on success. *)
Definition metadata_of (dcm : dataset) : dict := fst (extract_fields dcm).

(** A run that can succeed: pydicom is there, the input decodes to [dcm],
    the output path can be opened for writing and the dict of [dcm] can be
    written to it. *)
Definition ready (w : world) (dicom_path output_path : string) (dcm : dataset) : Prop :=
  pydicom_installed w = true /\
  files w !! dicom_path = Some (Dicom dcm) /\
  open_error w output_path = None /\
  write_error w output_path (metadata_of dcm) = None.

(** A path that opens for writing and takes whatever is written to it. *)
Definition writable (w : world) (path : string) : Prop :=
  open_error w path = None /\ forall doc, write_error w path doc = None.

(** The JSON document found at a path. *)
Definition document_at (w : world) (path : string) : option dict :=
  match files w !! path with
  | Some (Json doc) => Some doc
  | _ => None
  end.







(** No [float] conversion that the script applies to [v] (to [v] itself or,
    for a sequence, to its items) gives NaN or an infinity. *)
Fixpoint finite_conv (v : pyval) : bool :=
  match v with
  | VSeq items _ => forallb finite_conv items
  | _ =>
      match py_float v with
      | inr f => is_finite f
      | inl _ => true
      end
  end.

Definition finite_record (dcm : dataset) : Prop :=
  forall attr v, dcm !! attr = Some v -> finite_conv v = true.

(** The attributes converted by a bare [float(...)] with [except: pass],
    each with its key. *)
Definition float_fields : list (string * string) :=
  [("SliceThickness", "sliceThickness");
   ("RepetitionTime", "TR");
   ("EchoTime", "TE");
   ("FlipAngle", "flipAngle");
   ("SpacingBetweenSlices", "spacingBetweenSlices")].

(** The world after the script printed [lines]. *)
Definition say (w : world) (lines : list string) : world :=
  {| pydicom_installed := pydicom_installed w;
     files := files w;
     open_error := open_error w;
     write_error := write_error w;
     stdout := stdout w ++ lines |}.

(** The world after the script printed [lines] and dumped [doc] to [path]. *)
Definition say_and_write (w : world) (path : string) (doc : dict)
    (lines : list string) : world :=
  {| pydicom_installed := pydicom_installed w;
     files := <[path := Json doc]> (files w);
     open_error := open_error w;
     write_error := write_error w;
     stdout := stdout w ++ lines |}.

(** The world after the script printed [lines] and a dump to [path] raised
    after the file was opened, [doc] being the last one it tried to write. *)
Definition say_and_spoil (w : world) (path : string) (doc : dict)
    (lines : list string) : world :=
  {| pydicom_installed := pydicom_installed w;
     files := <[path := Partial doc]> (files w);
     open_error := open_error w;
     write_error := write_error w;
     stdout := stdout w ++ lines |}.

(** The ways a call of [extract_metadata] can go: pydicom missing, decoding
    raising, or the record decoded; the output path not opening, or opening
    with the writing completing or raising; and when a writing in the [try]
    block raised, the same again for the fallback of the second handler. *)
Inductive extract_spec (w : world) (dicom_path output_path : string) :
    result Z * world -> Prop :=
| run_success dcm :
    pydicom_installed w = true ->
    files w !! dicom_path = Some (Dicom dcm) ->
    open_error w output_path = None ->
    write_error w output_path (metadata_of dcm) = None ->
    extract_spec w dicom_path output_path
      (Ok 0,
       say_and_write w output_path (metadata_of dcm)
         (["Reading DICOM file: " +:+ dicom_path; "Successfully read DICOM file"]
          ++ snd (extract_fields dcm)
          ++ ["Writing metadata to: " +:+ output_path; "SUCCESS"]))
| run_success_unwritable dcm msg :
    pydicom_installed w = true ->
    files w !! dicom_path = Some (Dicom dcm) ->
    open_error w output_path = Some msg ->
    extract_spec w dicom_path output_path
      (Raise (Exception msg),
       say w
         (["Reading DICOM file: " +:+ dicom_path; "Successfully read DICOM file"]
          ++ snd (extract_fields dcm)
          ++ ["Writing metadata to: " +:+ output_path; "Error: " +:+ msg]))
| run_write_error_handled dcm msg :
    pydicom_installed w = true ->
    files w !! dicom_path = Some (Dicom dcm) ->
    open_error w output_path = None ->
    write_error w output_path (metadata_of dcm) = Some msg ->
    write_error w output_path (error_fallback msg) = None ->
    extract_spec w dicom_path output_path
      (Ok 2,
       say_and_write w output_path (error_fallback msg)
         (["Reading DICOM file: " +:+ dicom_path; "Successfully read DICOM file"]
          ++ snd (extract_fields dcm)
          ++ ["Writing metadata to: " +:+ output_path; "Error: " +:+ msg;
              "ERROR: " +:+ msg]))
| run_write_error_twice dcm msg msg' :
    pydicom_installed w = true ->
    files w !! dicom_path = Some (Dicom dcm) ->
    open_error w output_path = None ->
    write_error w output_path (metadata_of dcm) = Some msg ->
    write_error w output_path (error_fallback msg) = Some msg' ->
    extract_spec w dicom_path output_path
      (Raise (Exception msg'),
       say_and_spoil w output_path (error_fallback msg)
         (["Reading DICOM file: " +:+ dicom_path; "Successfully read DICOM file"]
          ++ snd (extract_fields dcm)
          ++ ["Writing metadata to: " +:+ output_path; "Error: " +:+ msg]))
| run_decode_error e :
    pydicom_installed w = true ->
    fst (dcmread dicom_path w) = Raise (Exception e) ->
    open_error w output_path = None ->
    write_error w output_path (error_fallback e) = None ->
    extract_spec w dicom_path output_path
      (Ok 2,
       say_and_write w output_path (error_fallback e)
         ["Reading DICOM file: " +:+ dicom_path; "Error: " +:+ e; "ERROR: " +:+ e])
| run_decode_error_unwritable e msg :
    pydicom_installed w = true ->
    fst (dcmread dicom_path w) = Raise (Exception e) ->
    open_error w output_path = Some msg ->
    extract_spec w dicom_path output_path
      (Raise (Exception msg),
       say w ["Reading DICOM file: " +:+ dicom_path; "Error: " +:+ e])
| run_decode_error_write_error e msg :
    pydicom_installed w = true ->
    fst (dcmread dicom_path w) = Raise (Exception e) ->
    open_error w output_path = None ->
    write_error w output_path (error_fallback e) = Some msg ->
    extract_spec w dicom_path output_path
      (Raise (Exception msg),
       say_and_spoil w output_path (error_fallback e)
         ["Reading DICOM file: " +:+ dicom_path; "Error: " +:+ e])
| run_no_pydicom :
    pydicom_installed w = false ->
    open_error w output_path = None ->
    write_error w output_path import_fallback = None ->
    extract_spec w dicom_path output_path
      (SystemExit 1,
       say_and_write w output_path import_fallback
         ["ImportError: " +:+ import_error_message;
          "extract_dicom_metadata.py: FATAL: PYDICOM_NOT_FOUND"])
| run_no_pydicom_unwritable msg :
    pydicom_installed w = false ->
    open_error w output_path = Some msg ->
    extract_spec w dicom_path output_path
      (Raise (Exception msg),
       say w ["ImportError: " +:+ import_error_message])
| run_no_pydicom_write_error msg :
    pydicom_installed w = false ->
    open_error w output_path = None ->
    write_error w output_path import_fallback = Some msg ->
    extract_spec w dicom_path output_path
      (Raise (Exception msg),
       say_and_spoil w output_path import_fallback
         ["ImportError: " +:+ import_error_message]).

End Spec.
Export Spec.

(** ** Records and worlds used as test inputs *)

Module Inputs.

(** A record of a 3-D acquisition on a MAGNETOM Sola whose field strength
    and slice thickness do not convert. *)
Definition sola_record : dataset :=
  <["Manufacturer" := VStr "SIEMENS"]>
  (<["ManufacturerModelName" := VStr "MAGNETOM Sola"]>
  (<["MagneticFieldStrength" := VStr "1.5T"]>
  (<["SeriesDescription" := VStr "AX 3D SPACE T2"]>
  (<["SliceThickness" := VStr "thin"]>
  (<["RepetitionTime" := VNum (FFin false (3200 # 1)) "3200"]>
  (<["PixelSpacing" := VSeq [VNum (FFin false (1 # 2)) "0.5"; VStr "0.5"] "[0.5, 0.5]"]>
   ∅)))))).

(** A 2-D acquisition on another scanner. *)
Definition flair_record : dataset :=
  <["ManufacturerModelName" := VStr "Prisma"]>
  (<["SeriesDescription" := VStr "AX T2 FLAIR"]>
  (<["SequenceName" := VStr "se2d1"]> ∅)).


(** A record whose SliceThickness reads [nan]. *)
Definition nan_record : dataset :=
  <["SliceThickness" := VStr "nan"]> ∅.


Definition always_writable : string -> option string := fun _ => None.

Definition every_write_completes : string -> dict -> option string :=
  fun _ _ => None.

(** A device without room: whatever is written, the writing raises. *)
Definition no_space_left : string -> dict -> option string :=
  fun _ _ => Some "[Errno 28] No space left on device".

Definition never_writable : string -> option string :=
  fun path => Some ("[Errno 13] Permission denied: '" +:+ path +:+ "'").

(** pydicom installed, the record in [scan.dcm], any path writable. *)
Definition scanner_world (dcm : dataset) : world :=
  {| pydicom_installed := true;
     files := <["scan.dcm" := Dicom dcm]> ∅;
     open_error := always_writable;
     write_error := every_write_completes;
     stdout := [] |}.

Definition no_pydicom_world : world :=
  {| pydicom_installed := false;
     files := <["scan.dcm" := Dicom sola_record]> ∅;
     open_error := always_writable;
     write_error := every_write_completes;
     stdout := [] |}.

Definition corrupt_world : world :=
  {| pydicom_installed := true;
     files := <["scan.dcm" := Corrupt "Invalid DICOM data"]> ∅;
     open_error := always_writable;
     write_error := every_write_completes;
     stdout := [] |}.

(** The same three with no path writable. *)
Definition read_only (w : world) : world :=
  {| pydicom_installed := pydicom_installed w;
     files := files w;
     open_error := never_writable;
     write_error := write_error w;
     stdout := stdout w |}.

(** The same three on a device without room: every path opens and no
    writing completes. *)
Definition full_disk (w : world) : world :=
  {| pydicom_installed := pydicom_installed w;
     files := files w;
     open_error := open_error w;
     write_error := no_space_left;
     stdout := stdout w |}.

End Inputs.
Export Inputs.

(** ** Vocabulary for the field table as a whole *)

Module Coverage.

(** The keys of a dict, in the order [json.dump] writes them. *)
Definition keys (d : dict) : list string := List.map fst d.

(** The attributes coerced by [safe_value] (lines 41-44 and 53-68), each
    with its key. *)
Definition safe_fields : list (string * string) :=
  [("Manufacturer", "manufacturer");
   ("ManufacturerModelName", "modelName");
   ("ProtocolName", "protocolName");
   ("SeriesDescription", "seriesDescription");
   ("SequenceName", "sequenceName");
   ("ScanningSequence", "scanningSequence");
   ("SequenceVariant", "sequenceVariant");
   ("ImageType", "imageType");
   ("MRAcquisitionType", "acquisitionType")].

(** Every key that lines 24-127 can set, in the order of their first
    assignment. *)
Definition key_order : list string :=
  ["manufacturer"; "modelName"; "fieldStrength";
   "protocolName"; "seriesDescription"; "sequenceName";
   "scanningSequence"; "sequenceVariant";
   "imageType"; "acquisitionType"; "is3D";
   "sliceThickness"; "TR"; "TE"; "flipAngle"; "spacingBetweenSlices";
   "pixelSpacing"; "isMagnetomSola"].

(** Every attribute name that lines 24-127 look at. *)
Definition used_attributes : list string :=
  ["Manufacturer"; "ManufacturerModelName"; "MagneticFieldStrength";
   "ProtocolName"; "SeriesDescription"; "SequenceName";
   "ScanningSequence"; "SequenceVariant";
   "ImageType"; "MRAcquisitionType"; "Private_0019_10e0";
   "SliceThickness"; "RepetitionTime"; "EchoTime"; "FlipAngle";
   "SpacingBetweenSlices"; "PixelSpacing"].

(** A value made of floats, strings and lists of such only. *)
Fixpoint float_or_str (v : jval) : bool :=
  match v with
  | JFloat _ | JStr _ => true
  | JList items => forallb float_or_str items
  | JInt _ | JBool _ => false
  end.

(** A record with every attribute of the table, all well formed. *)
Definition full_record : dataset :=
  <["Manufacturer" := VStr "SIEMENS"]>
  (<["ManufacturerModelName" := VStr "MAGNETOM Sola"]>
  (<["MagneticFieldStrength" := VNum (FFin false (3 # 2)) "1.5"]>
  (<["ProtocolName" := VStr "t2_space_sag"]>
  (<["SeriesDescription" := VStr "T2 SPACE SAG"]>
  (<["SequenceName" := VStr "spc_282ns"]>
  (<["ScanningSequence" := VStr "SE"]>
  (<["SequenceVariant" := VSeq [VStr "SK"; VStr "SP"] "['SK', 'SP']"]>
  (<["ImageType" := VSeq [VStr "ORIGINAL"; VStr "PRIMARY"] "['ORIGINAL', 'PRIMARY']"]>
  (<["MRAcquisitionType" := VStr "3D"]>
  (<["SliceThickness" := VNum (FFin false (1 # 1)) "1"]>
  (<["RepetitionTime" := VNum (FFin false (3200 # 1)) "3200"]>
  (<["EchoTime" := VNum (FFin false (408 # 1)) "408"]>
  (<["FlipAngle" := VNum (FFin false (120 # 1)) "120"]>
  (<["SpacingBetweenSlices" := VNum (FFin false (1 # 1)) "1"]>
  (<["PixelSpacing" := VSeq [VNum (FFin false (1 # 2)) "0.5"; VNum (FFin false (1 # 2)) "0.5"]
                          "[0.5, 0.5]"]>
   ∅))))))))))))))).

End Coverage.
Export Coverage.

(** ** The built-ins on sample inputs *)

(** [float] of a [str] rounds to the nearest double, ties to even; it keeps
    the sign of a zero, goes to zero below half the least subnormal and to
    an infinity above the largest double. *)
Example float_rounds_to_the_nearest_double :
  parse_float true "0.1"
  = Some (FFin false (3602879701896397 # 36028797018963968)) /\
  parse_float true "1.5" = Some (FFin false (3 # 2)) /\
  parse_float true " -1_0.5e+1 " = Some (FFin true (105 # 1)) /\
  parse_float true "-0" = Some (FFin true (0 # 1)) /\
  parse_float true "1e-400" = Some (FFin false (0 # 1)) /\
  parse_float true "2e-324" = Some (FFin false (0 # 1)) /\
  parse_float true "3e-324" = Some (FFin false (Qmake 1 (Z.to_pos (2 ^ 1074)))) /\
  parse_float true "5e-324" = Some (FFin false (Qmake 1 (Z.to_pos (2 ^ 1074)))) /\
  parse_float true "1.7976931348623157e308"
  = Some (FFin false (inject_Z ((2 ^ 53 - 1) * 2 ^ 971))) /\
  parse_float true "1.7976931348623159e308" = Some (FInf false) /\
  parse_float true "1e309" = Some (FInf false) /\
  parse_float true "-inf" = Some (FInf true) /\
  parse_float true "Infinity" = Some (FInf false) /\
  parse_float true "+NaN" = Some FNaN.
Proof. repeat split; by vm_compute. Qed.

(** What [float] does not read. *)
Example float_raises :
  parse_float true "1.5T" = None /\
  parse_float true "1__0" = None /\
  parse_float true "1_" = None /\
  parse_float true "0x10" = None /\
  parse_float true "1e" = None /\
  parse_float true "." = None /\
  parse_float true "" = None.
Proof. repeat split; by vm_compute. Qed.

(** Beyond ASCII, [float] of a [str] takes the white space and the decimal
    digits of Unicode: a no-break space (U+00A0) is stripped, Arabic-Indic
    and full-width digits are read.  The control characters U+001C to
    U+001F, white space for [str.isspace], are not stripped; and a [bytes]
    object is read byte by byte, so none of this holds for it. *)
Example float_beyond_ascii :
  parse_float true (encode 160 +:+ "nan") = Some FNaN /\
  parse_float true (encode 160 +:+ "1.5") = Some (FFin false (3 # 2)) /\
  parse_float true (encode 28 +:+ "1.5") = None /\
  parse_float true (encode 31 +:+ "7") = None /\
  parse_float true (encode 1633 +:+ encode 1634 +:+ "." +:+ encode 1637)
  = Some (FFin false (25 # 2)) /\
  parse_float true (encode 65297 +:+ encode 65298) = Some (FFin false (12 # 1)) /\
  parse_float false (encode 160 +:+ "1.5") = None /\
  parse_float false " 1.5" = Some (FFin false (3 # 2)) /\
  parse_float false "1_000" = Some (FFin false (1000 # 1)).
Proof. repeat split; by vm_compute. Qed.

(** [str.upper] follows the full case mapping: a sharp s (U+00DF) becomes
    "SS", a long s (U+017F) becomes "S", a ligature its letters, and an
    upper case may lie in another block of the table. *)
Example upper_beyond_ascii :
  upper "mprage" = "MPRAGE" /\
  upper (encode 223 +:+ "pace") = "SSPACE" /\
  upper (encode 383 +:+ "pace") = "SPACE" /\
  upper ("stra" +:+ encode 223 +:+ "e 3d") = "STRASSE 3D" /\
  upper (encode 454) = encode 452 /\
  upper (encode 64257) = "FI" /\
  upper (encode 912) = encode 921 +:+ encode 776 +:+ encode 769 /\
  upper (encode 255) = encode 376 /\
  upper (encode 181) = encode 924 /\
  chars ("a" +:+ encode 223 +:+ encode 8364 +:+ "z")
  = ["a"; encode 223; encode 8364; "z"].
Proof. repeat split; by vm_compute. Qed.

(** ** Lookups in the dict, step by step *)

Section DictLemmas.

Lemma dict_get_set_eq key value d :
  dict_get key (dict_set key value d) = Some value.
Proof.
  induction d as [| [k v] d IH]; simpl.
  - by rewrite String.eqb_refl.
  - destruct (String.eqb k key) eqn:E; simpl; rewrite E; [done | exact IH].
Qed.

Lemma dict_get_set_ne key key' value d :
  key' <> key -> dict_get key (dict_set key' value d) = dict_get key d.
Proof.
  intros Hne. induction d as [| [k v] d IH]; simpl.
  - destruct (String.eqb_spec key' key); [contradiction | done].
  - destruct (String.eqb_spec k key') as [-> | Hk]; simpl.
    + destruct (String.eqb_spec key' key); [contradiction | done].
    + destruct (String.eqb k key); [done | exact IH].
Qed.

Lemma dict_valid_set key value d :
  json_valid value = true -> dict_valid d = true ->
  dict_valid (dict_set key value d) = true.
Proof.
  intros Hv. unfold dict_valid. induction d as [| [k v] d IH]; simpl.
  - by rewrite Hv.
  - intros [H1 H2]%andb_prop.
    destruct (String.eqb k key); simpl.
    + by rewrite Hv, H2.
    + by rewrite H1, IH.
Qed.

Variable dcm : dataset.

Lemma get_set_safe_ne k attr key md :
  key <> k -> dict_get k (set_safe dcm attr key md) = dict_get k md.
Proof.
  intros. unfold set_safe. destruct (dcm !! attr); [| done].
  by apply dict_get_set_ne.
Qed.

Lemma get_set_float_ne k attr key md :
  key <> k -> dict_get k (set_float dcm attr key md) = dict_get k md.
Proof.
  intros. unfold set_float. destruct (dcm !! attr) as [v |]; [| done].
  destruct (py_float v); [done |]. by apply dict_get_set_ne.
Qed.

Lemma get_set_float_eq attr key md :
  dict_get key (set_float dcm attr key md) =
  match dcm !! attr with
  | Some v =>
      match py_float v with
      | inr f => Some (JFloat f)
      | inl _ => dict_get key md
      end
  | None => dict_get key md
  end.
Proof.
  unfold set_float. destruct (dcm !! attr) as [v |]; [| done].
  destruct (py_float v); [done |]. apply dict_get_set_eq.
Qed.

Lemma get_field_strength_ne k md :
  "fieldStrength" <> k ->
  dict_get k (fst (set_field_strength dcm md)) = dict_get k md.
Proof.
  intros. unfold set_field_strength.
  destruct (dcm !! "MagneticFieldStrength") as [v |]; [| done].
  destruct (py_float v); simpl; by apply dict_get_set_ne.
Qed.

Lemma get_field_strength_eq md :
  dict_get "fieldStrength" (fst (set_field_strength dcm md)) =
  match dcm !! "MagneticFieldStrength" with
  | Some v =>
      match py_float v with
      | inr f => Some (JFloat f)
      | inl _ => Some (JFloat three_point_zero)
      end
  | None => dict_get "fieldStrength" md
  end.
Proof.
  unfold set_field_strength.
  destruct (dcm !! "MagneticFieldStrength") as [v |]; [| done].
  destruct (py_float v); simpl; apply dict_get_set_eq.
Qed.

Lemma get_detect_3d_ne k md :
  "is3D" <> k -> dict_get k (detect_3d dcm md) = dict_get k md.
Proof.
  intros. unfold detect_3d.
  repeat match goal with
         | |- context [match ?x with _ => _ end] => destruct x
         end;
    rewrite ?dict_get_set_ne by done; done.
Qed.

Lemma get_pixel_spacing_ne k md :
  "pixelSpacing" <> k -> dict_get k (set_pixel_spacing dcm md) = dict_get k md.
Proof.
  intros. unfold set_pixel_spacing.
  repeat match goal with
         | |- context [match ?x with _ => _ end] => destruct x
         end;
    rewrite ?dict_get_set_ne by done; done.
Qed.

Lemma get_magnetom_sola_ne k md :
  "isMagnetomSola" <> k -> dict_get k (set_magnetom_sola dcm md) = dict_get k md.
Proof.
  intros. unfold set_magnetom_sola.
  repeat match goal with
         | |- context [match ?x with _ => _ end] => destruct x
         end;
    rewrite ?dict_get_set_ne by done; done.
Qed.

(** The dict of a record as the composition of the steps of the source. *)
Lemma metadata_of_steps :
  metadata_of dcm =
  set_magnetom_sola dcm
    (set_pixel_spacing dcm
      (set_float dcm "SpacingBetweenSlices" "spacingBetweenSlices"
        (set_float dcm "FlipAngle" "flipAngle"
          (set_float dcm "EchoTime" "TE"
            (set_float dcm "RepetitionTime" "TR"
              (set_float dcm "SliceThickness" "sliceThickness"
                (detect_3d dcm
                  (set_safe dcm "MRAcquisitionType" "acquisitionType"
                    (set_safe dcm "ImageType" "imageType"
                      (set_safe dcm "SequenceVariant" "sequenceVariant"
                        (set_safe dcm "ScanningSequence" "scanningSequence"
                          (set_safe dcm "SequenceName" "sequenceName"
                            (set_safe dcm "SeriesDescription" "seriesDescription"
                              (set_safe dcm "ProtocolName" "protocolName"
                                (fst (set_field_strength dcm
                                  (set_safe dcm "ManufacturerModelName" "modelName"
                                    (set_safe dcm "Manufacturer" "manufacturer"
                                       [])))))))))))))))))).
Proof.
  unfold metadata_of, extract_fields.
  by destruct (set_field_strength dcm _).
Qed.

Lemma printed_of_steps :
  snd (extract_fields dcm) =
  snd (set_field_strength dcm
         (set_safe dcm "ManufacturerModelName" "modelName"
            (set_safe dcm "Manufacturer" "manufacturer" []))).
Proof.
  unfold extract_fields. by destruct (set_field_strength dcm _).
Qed.

End DictLemmas.

(** Pushes a lookup of a key through the steps that do not set it. *)
Ltac skip_steps :=
  repeat progress
    (rewrite ?get_magnetom_sola_ne, ?get_pixel_spacing_ne, ?get_set_float_ne,
       ?get_detect_3d_ne, ?get_set_safe_ne, ?get_field_strength_ne by done).

(** ** [in] and [upper] against the specification's substring search *)

Section Substrings.















Lemma append_empty s : s +:+ "" = s.
Proof.
  induction s as [| c s IH]; [done |].
  change (String c (s +:+ "") = String c s). by rewrite IH.
Qed.




End Substrings.

(** ** Every run of [extract_metadata] *)

(** Runs the handlers and the dumps once the decoding is settled, with what
    the context says of the opening of the output path and of the writes. *)
Ltac run_world :=
  repeat (progress (unfold on_exception, on_import_error, bind, json_dump_to,
                      with_file, ret, sys_exit, print, say, say_and_write,
                      say_and_spoil;
                    simpl;
                    repeat match goal with
                           | H : open_error _ _ = _ |- _ => rewrite H
                           | H : write_error _ _ _ = _ |- _ => rewrite H
                           end));
  rewrite <- ?app_assoc, ?insert_insert_eq; reflexivity.

Section Runs.

Lemma say_nil w : say w [] = w.
Proof. destruct w. unfold say. simpl. by rewrite app_nil_r. Qed.

Lemma say_say w l1 l2 : say (say w l1) l2 = say w (l1 ++ l2).
Proof. unfold say. simpl. by rewrite app_assoc. Qed.

Lemma print_run line w : print line w = (Ok tt, say w [line]).
Proof. done. Qed.

Lemma print_all_run lines w : print_all lines w = (Ok tt, say w lines).
Proof.
  revert w. induction lines as [| line lines IH]; intros w; simpl.
  - unfold ret. by rewrite say_nil.
  - unfold bind. rewrite print_run, IH, say_say. done.
Qed.

(** Decoding gives a record or raises an [Exception], and leaves the world
    as it is. *)
Lemma dcmread_run path w :
  snd (dcmread path w) = w /\
  ((exists dcm, files w !! path = Some (Dicom dcm) /\ fst (dcmread path w) = Ok dcm) \/
   (exists e, fst (dcmread path w) = Raise (Exception e) /\
              forall dcm, files w !! path <> Some (Dicom dcm))).
Proof.
  unfold dcmread. destruct (files w !! path) as [[dcm | msg | doc | doc] |]; simpl;
    (split; [done |]); [left | right | right | right | right]; eauto.
Qed.

(** The characterisation of all runs. *)
Lemma extract_metadata_spec w dicom_path output_path :
  extract_spec w dicom_path output_path (extract_metadata dicom_path output_path w).
Proof.
  destruct (pydicom_installed w) eqn:Hpy.
  - destruct (dcmread_run dicom_path w) as [Hw [(dcm & Hfile & Hread) | (e & Hread & _)]].
    + destruct (open_error w output_path) as [msg |] eqn:Hopen;
        [| destruct (write_error w output_path (metadata_of dcm)) as [msg |] eqn:Hwrite;
           [destruct (write_error w output_path (error_fallback msg)) as [msg' |] eqn:Hagain |]].
      * replace (extract_metadata dicom_path output_path w) with
          (Raise (A := Z) (Exception msg),
           say w (["Reading DICOM file: " +:+ dicom_path; "Successfully read DICOM file"]
                  ++ snd (extract_fields dcm)
                  ++ ["Writing metadata to: " +:+ output_path; "Error: " +:+ msg])).
        { by eapply run_success_unwritable. }
        unfold extract_metadata, try_except, extract_body, bind, import_pydicom.
        rewrite Hpy, print_run. unfold dcmread. simpl. rewrite Hfile. simpl.
        destruct (extract_fields dcm) as [md pr]. simpl.
        rewrite print_all_run. run_world.
      * replace (extract_metadata dicom_path output_path w) with
          (Raise (A := Z) (Exception msg'),
           say_and_spoil w output_path (error_fallback msg)
             (["Reading DICOM file: " +:+ dicom_path; "Successfully read DICOM file"]
              ++ snd (extract_fields dcm)
              ++ ["Writing metadata to: " +:+ output_path; "Error: " +:+ msg])).
        { by eapply run_write_error_twice. }
        unfold metadata_of in Hwrite.
        unfold extract_metadata, try_except, extract_body, bind, import_pydicom.
        rewrite Hpy, print_run. unfold dcmread. simpl. rewrite Hfile. simpl.
        destruct (extract_fields dcm) as [md pr]. simpl in *.
        rewrite print_all_run. run_world.
      * replace (extract_metadata dicom_path output_path w) with
          (Ok 2,
           say_and_write w output_path (error_fallback msg)
             (["Reading DICOM file: " +:+ dicom_path; "Successfully read DICOM file"]
              ++ snd (extract_fields dcm)
              ++ ["Writing metadata to: " +:+ output_path; "Error: " +:+ msg;
                  "ERROR: " +:+ msg])).
        { by eapply run_write_error_handled. }
        unfold metadata_of in Hwrite.
        unfold extract_metadata, try_except, extract_body, bind, import_pydicom.
        rewrite Hpy, print_run. unfold dcmread. simpl. rewrite Hfile. simpl.
        destruct (extract_fields dcm) as [md pr]. simpl in *.
        rewrite print_all_run. run_world.
      * replace (extract_metadata dicom_path output_path w) with
          (Ok 0,
           say_and_write w output_path (metadata_of dcm)
             (["Reading DICOM file: " +:+ dicom_path; "Successfully read DICOM file"]
              ++ snd (extract_fields dcm)
              ++ ["Writing metadata to: " +:+ output_path; "SUCCESS"])).
        { by eapply run_success. }
        unfold metadata_of in *.
        unfold extract_metadata, try_except, extract_body, bind, import_pydicom.
        rewrite Hpy, print_run. unfold dcmread. simpl. rewrite Hfile. simpl.
        destruct (extract_fields dcm) as [md pr]. simpl in *.
        rewrite print_all_run. run_world.
    + assert (Hrun : dcmread dicom_path (say w ["Reading DICOM file: " +:+ dicom_path])
                     = (Raise (Exception e), say w ["Reading DICOM file: " +:+ dicom_path])).
      { revert Hread. unfold dcmread. simpl.
        destruct (files w !! dicom_path) as [[dcm | msg | doc | doc] |]; simpl; congruence. }
      destruct (open_error w output_path) as [msg |] eqn:Hopen;
        [| destruct (write_error w output_path (error_fallback e)) as [msg |] eqn:Hwrite].
      * replace (extract_metadata dicom_path output_path w) with
          (Raise (A := Z) (Exception msg),
           say w ["Reading DICOM file: " +:+ dicom_path; "Error: " +:+ e]).
        { by eapply run_decode_error_unwritable. }
        unfold extract_metadata, try_except, extract_body, bind, import_pydicom.
        rewrite Hpy, print_run, Hrun. run_world.
      * replace (extract_metadata dicom_path output_path w) with
          (Raise (A := Z) (Exception msg),
           say_and_spoil w output_path (error_fallback e)
             ["Reading DICOM file: " +:+ dicom_path; "Error: " +:+ e]).
        { by eapply run_decode_error_write_error. }
        unfold extract_metadata, try_except, extract_body, bind, import_pydicom.
        rewrite Hpy, print_run, Hrun. run_world.
      * replace (extract_metadata dicom_path output_path w) with
          (Ok 2,
           say_and_write w output_path (error_fallback e)
             ["Reading DICOM file: " +:+ dicom_path; "Error: " +:+ e; "ERROR: " +:+ e]).
        { by eapply run_decode_error. }
        unfold extract_metadata, try_except, extract_body, bind, import_pydicom.
        rewrite Hpy, print_run, Hrun. run_world.
  - destruct (open_error w output_path) as [msg |] eqn:Hopen;
      [| destruct (write_error w output_path import_fallback) as [msg |] eqn:Hwrite].
    + replace (extract_metadata dicom_path output_path w) with
        (Raise (A := Z) (Exception msg), say w ["ImportError: " +:+ import_error_message]).
      { by eapply run_no_pydicom_unwritable. }
      unfold extract_metadata, try_except, extract_body, bind, import_pydicom.
      rewrite Hpy. run_world.
    + replace (extract_metadata dicom_path output_path w) with
        (Raise (A := Z) (Exception msg),
         say_and_spoil w output_path import_fallback
           ["ImportError: " +:+ import_error_message]).
      { by eapply run_no_pydicom_write_error. }
      unfold extract_metadata, try_except, extract_body, bind, import_pydicom.
      rewrite Hpy. run_world.
    + replace (extract_metadata dicom_path output_path w) with
        (SystemExit (A := Z) 1,
         say_and_write w output_path import_fallback
           ["ImportError: " +:+ import_error_message;
            "extract_dicom_metadata.py: FATAL: PYDICOM_NOT_FOUND"]).
      { by eapply run_no_pydicom. }
      unfold extract_metadata, try_except, extract_body, bind, import_pydicom.
      rewrite Hpy. run_world.
Qed.

End Runs.

(** ** Successful runs *)

Section Success.

Lemma document_at_written w path doc lines :
  document_at (say_and_write w path doc lines) path = Some doc.
Proof. unfold document_at, say_and_write. simpl. by rewrite lookup_insert_eq. Qed.

Lemma dcmread_dicom w path dcm :
  files w !! path = Some (Dicom dcm) -> fst (dcmread path w) = Ok dcm.
Proof. intros H. unfold dcmread. by rewrite H. Qed.

(** What a ready run returns and leaves behind. *)
Lemma ready_result w dicom_path output_path dcm :
  ready w dicom_path output_path dcm ->
  extract_metadata dicom_path output_path w =
  (Ok 0,
   say_and_write w output_path (metadata_of dcm)
     (["Reading DICOM file: " +:+ dicom_path; "Successfully read DICOM file"]
      ++ snd (extract_fields dcm)
      ++ ["Writing metadata to: " +:+ output_path; "SUCCESS"])).
Proof.
  intros (Hpy & Hfile & Hopen & Hwrite).
  pose proof (dcmread_dicom _ _ _ Hfile) as Hread.
  destruct (extract_metadata_spec w dicom_path output_path); congruence.
Qed.

(** A ready run returns 0 and dumps the dict of the record. *)
Lemma ready_run w dicom_path output_path dcm :
  ready w dicom_path output_path dcm ->
  fst (extract_metadata dicom_path output_path w) = Ok 0 /\
  document_at (snd (extract_metadata dicom_path output_path w)) output_path
    = Some (metadata_of dcm).
Proof.
  intros Hready. rewrite (ready_result _ _ _ _ Hready). simpl.
  by rewrite document_at_written.
Qed.


End Success.

(** ** The two heuristics *)

Section Heuristics.

Variable dcm : dataset.

(** The three checks of lines 69-89 as one boolean. *)
Lemma get_detect_3d_eq md :
  dict_get "is3D" md = None ->
  dict_get "is3D" (detect_3d dcm md) =
  if (match dcm !! "Private_0019_10e0" with Some _ => true | None => false end)
     || (match dcm !! "SeriesDescription" with
         | Some v => names_3d (upper (py_str v)) | None => false end)
     || (match dcm !! "SequenceName" with
         | Some v => names_3d (upper (py_str v)) | None => false end)
  then Some (JBool true) else None.
Proof.
  intros Hmd. unfold detect_3d.
  destruct (dcm !! "Private_0019_10e0") as [p |];
    destruct (dcm !! "SeriesDescription") as [d |];
    destruct (dcm !! "SequenceName") as [s |];
    try destruct (names_3d (upper (py_str d)));
    try destruct (names_3d (upper (py_str s)));
    simpl; rewrite ?dict_get_set_eq; done.
Qed.

Lemma get_is3d :
  dict_get "is3D" (metadata_of dcm) =
  if (match dcm !! "Private_0019_10e0" with Some _ => true | None => false end)
     || (match dcm !! "SeriesDescription" with
         | Some v => names_3d (upper (py_str v)) | None => false end)
     || (match dcm !! "SequenceName" with
         | Some v => names_3d (upper (py_str v)) | None => false end)
  then Some (JBool true) else None.
Proof.
  rewrite metadata_of_steps. skip_steps.
  apply get_detect_3d_eq. by skip_steps.
Qed.



End Heuristics.

(** ** C3: the key [is3D] *)






(** ** Numbers in the dumped document *)

Section Numbers.

(** One ASCII character never reads as NaN or an infinity. *)
Lemma parse_literal_char a :
  match parse_literal [a] with
  | Some f => is_finite f = true
  | None => True
  end.
Proof. destruct a as [[] [] [] [] [] [] [] []]; vm_compute; done. Qed.

Lemma append_cons_assoc cur c r :
  (cur +:+ String c "") +:+ r = cur +:+ String c r.
Proof.
  induction cur as [| b cur IH]; [done |].
  change (String b ((cur +:+ String c "") +:+ r) = String b (cur +:+ String c r)).
  by rewrite IH.
Qed.

Lemma continuation_only_app r c :
  continuation_only r = true -> is_continuation c = true ->
  continuation_only (r +:+ String c "") = true.
Proof.
  intros Hr Hc. induction r as [| b r IH].
  - change (is_continuation c && true = true). by rewrite Hc.
  - change (is_continuation b && continuation_only (r +:+ String c "") = true).
    simpl in Hr. apply andb_true_iff in Hr as [Hb Hr]. by rewrite Hb, IH.
Qed.

(** Every item of [chars] is the bytes of one character. *)
Lemma chars_from_one_char cur s :
  one_char cur = true -> Forall (fun ch => one_char ch = true) (chars_from cur s).
Proof.
  revert cur. induction s as [| c s IH]; intros cur Hcur; simpl.
  - by constructor.
  - destruct (is_continuation c) eqn:Hc.
    + apply IH. destruct cur as [| b r]; [done |].
      change (continuation_only (r +:+ String c "") = true).
      by apply continuation_only_app.
    + constructor; [done |]. by apply IH.
Qed.

Lemma chars_one_char s : Forall (fun ch => one_char ch = true) (chars s).
Proof. destruct s as [| c s]; simpl; [constructor | by apply chars_from_one_char]. Qed.

Lemma chars_from_continuation cur r :
  continuation_only r = true -> chars_from cur r = [cur +:+ r].
Proof.
  revert cur. induction r as [| c r IH]; intros cur Hr; simpl in *.
  - by rewrite append_empty.
  - apply andb_true_iff in Hr as [Hc Hr]. rewrite Hc, (IH _ Hr).
    by rewrite append_cons_assoc.
Qed.

(** One character is all of its own characters. *)
Lemma chars_of_one_char ch : one_char ch = true -> chars ch = [ch].
Proof.
  destruct ch as [| b r]; [done |]. simpl. intros Hr.
  by rewrite (chars_from_continuation _ _ Hr).
Qed.

Lemma to_ascii_one ch : exists a, to_ascii [ch] = [a].
Proof.
  simpl. destruct (code_point ch) as [cp |]; [| by eexists].
  destruct (cp <? 127)%Z; [by eexists |].
  destruct (is_unicode_space cp); [by eexists |].
  destruct (unicode_decimal cp); by eexists.
Qed.

(** One character of a [str] never reads as NaN or an infinity. *)
Lemma parse_float_char ch :
  one_char ch = true ->
  match parse_float true ch with
  | Some f => is_finite f = true
  | None => True
  end.
Proof.
  intros Hch. unfold parse_float. rewrite (chars_of_one_char _ Hch).
  destruct (to_ascii_one ch) as [a ->]. apply parse_literal_char.
Qed.

Lemma finite_conv_float v f :
  finite_conv v = true -> py_float v = inr f -> is_finite f = true.
Proof.
  destruct v as [s | b | g t | | items t]; simpl; try done.
  - destruct (parse_float true s); [| done]. by intros H [= <-].
  - destruct (parse_float false b); [| done]. by intros H [= <-].
  - by intros H [= <-].
Qed.

Lemma floats_of_finite items fs :
  (forall x f, In x items -> py_float x = inr f -> is_finite f = true) ->
  floats_of items = Some fs ->
  json_valid (JList (List.map JFloat fs)) = true.
Proof.
  revert fs. induction items as [| x items IH]; intros fs Hall; simpl.
  - by intros [= <-].
  - destruct (py_float x) as [e | f] eqn:Hx; [done |].
    destruct (floats_of items) as [fs' |] eqn:Hfs; [| done].
    intros [= <-]. simpl.
    rewrite (Hall x f) by (by left || done).
    apply (IH fs'); [| done]. intros y g Hy. apply Hall. by right.
Qed.

(** What iteration yields converts to finite floats only, when the value
    does. *)
Lemma py_iter_finite v items x f :
  finite_conv v = true -> py_iter v = Some items ->
  In x items -> py_float x = inr f -> is_finite f = true.
Proof.
  destruct v as [s | b | g t | | its t]; simpl; try done.
  - intros _ [= <-] [ch [<- Hch]]%in_map_iff. simpl.
    pose proof (proj1 (List.Forall_forall _ _) (chars_one_char s) ch Hch) as Hone.
    pose proof (parse_float_char ch Hone) as Hc.
    destruct (parse_float true ch); [| done]. by intros [= <-].
  - intros _ [= <-] [c [<- _]]%in_map_iff. simpl. by intros [= <-].
  - intros Hall [= <-] Hin. apply finite_conv_float.
    rewrite forallb_forall in Hall. by apply Hall.
Qed.

Lemma safe_value_valid :
  forall v, finite_conv v = true -> json_valid (safe_value v) = true.
Proof.
  fix IH 1. intros [s | b | f t | | items t]; simpl; try done.
  - destruct (parse_float true s); simpl; done.
  - induction items as [| x items IHitems]; simpl; [done |].
    intros [Hx Hitems]%andb_prop.
    rewrite (IH x Hx). simpl. by apply IHitems.
Qed.

Variable dcm : dataset.
Hypothesis Hfinite : finite_record dcm.

Lemma set_safe_valid attr key md :
  dict_valid md = true -> dict_valid (set_safe dcm attr key md) = true.
Proof.
  intros Hmd. unfold set_safe. destruct (dcm !! attr) as [v |] eqn:E; [| done].
  apply dict_valid_set; [| done]. apply safe_value_valid. by eapply Hfinite.
Qed.

Lemma set_float_valid attr key md :
  dict_valid md = true -> dict_valid (set_float dcm attr key md) = true.
Proof.
  intros Hmd. unfold set_float. destruct (dcm !! attr) as [v |] eqn:E; [| done].
  destruct (py_float v) as [e | f] eqn:Hf; [done |].
  apply dict_valid_set; [| done]. simpl.
  eapply finite_conv_float; [| done]. by eapply Hfinite.
Qed.

Lemma set_field_strength_valid md :
  dict_valid md = true -> dict_valid (fst (set_field_strength dcm md)) = true.
Proof.
  intros Hmd. unfold set_field_strength.
  destruct (dcm !! "MagneticFieldStrength") as [v |] eqn:E; [| done].
  destruct (py_float v) as [e | f] eqn:Hf; simpl.
  - by apply dict_valid_set.
  - apply dict_valid_set; [| done]. simpl.
    eapply finite_conv_float; [| done]. by eapply Hfinite.
Qed.

Lemma detect_3d_valid md :
  dict_valid md = true -> dict_valid (detect_3d dcm md) = true.
Proof.
  intros Hmd. unfold detect_3d.
  repeat match goal with
         | |- context [match ?x with _ => _ end] => destruct x
         end;
    repeat apply dict_valid_set; done.
Qed.

Lemma set_pixel_spacing_valid md :
  dict_valid md = true -> dict_valid (set_pixel_spacing dcm md) = true.
Proof.
  intros Hmd. unfold set_pixel_spacing.
  destruct (dcm !! "PixelSpacing") as [v |] eqn:E; [| done].
  destruct (py_iter v) as [items |] eqn:Hit; [| done].
  destruct (floats_of items) as [fs |] eqn:Hfs; [| done].
  apply dict_valid_set; [| done].
  eapply floats_of_finite; [| done].
  intros x f. eapply py_iter_finite; [| done]. by eapply Hfinite.
Qed.

Lemma set_magnetom_sola_valid md :
  dict_valid md = true -> dict_valid (set_magnetom_sola dcm md) = true.
Proof.
  intros Hmd. unfold set_magnetom_sola.
  destruct (dcm !! "ManufacturerModelName") as [v |]; [| done].
  destruct (contains _ _); [| done]. by apply dict_valid_set.
Qed.

(** Every float of the dict is finite when every conversion is. *)
Lemma metadata_valid : dict_valid (metadata_of dcm) = true.
Proof.
  rewrite metadata_of_steps.
  repeat first
    [ apply set_magnetom_sola_valid | apply set_pixel_spacing_valid
    | apply set_float_valid | apply detect_3d_valid | apply set_safe_valid
    | apply set_field_strength_valid ].
  done.
Qed.

End Numbers.

Section FloatFields.

Variable dcm : dataset.

(** The key of a bare [float(...)] field: the converted float, or no key. *)
Lemma get_float_field attr key :
  In (attr, key) float_fields ->
  dict_get key (metadata_of dcm) =
  match dcm !! attr with
  | Some v => match py_float v with inr f => Some (JFloat f) | inl _ => None end
  | None => None
  end.
Proof.
  intros Hin. rewrite metadata_of_steps. simpl in Hin.
  destruct Hin as [[= <- <-] | [[= <- <-] | [[= <- <-] | [[= <- <-] | [[= <- <-] | []]]]]];
    skip_steps; rewrite get_set_float_eq; skip_steps;
    (destruct (dcm !! _) as [v |]; [destruct (py_float v) |]); done.
Qed.

Lemma get_pixel_spacing :
  dict_get "pixelSpacing" (metadata_of dcm) =
  match dcm !! "PixelSpacing" with
  | Some v =>
      match py_iter v with
      | Some items =>
          match floats_of items with
          | Some fs => Some (JList (List.map JFloat fs))
          | None => None
          end
      | None => None
      end
  | None => None
  end.
Proof.
  rewrite metadata_of_steps. skip_steps. unfold set_pixel_spacing.
  destruct (dcm !! "PixelSpacing") as [v |]; [| by skip_steps].
  destruct (py_iter v) as [items |]; [| by skip_steps].
  destruct (floats_of items) as [fs |]; [| by skip_steps].
  apply dict_get_set_eq.
Qed.

Lemma get_field_strength :
  dict_get "fieldStrength" (metadata_of dcm) =
  match dcm !! "MagneticFieldStrength" with
  | Some v =>
      match py_float v with
      | inr f => Some (JFloat f)
      | inl _ => Some (JFloat three_point_zero)
      end
  | None => None
  end.
Proof.
  rewrite metadata_of_steps. skip_steps. rewrite get_field_strength_eq.
  destruct (dcm !! "MagneticFieldStrength"); [done |]. by skip_steps.
Qed.

End FloatFields.

(** ** Field strength (lines 45-50) *)

(** A field strength that is present and does not convert becomes 3.0, and
    the warning is printed. *)
Lemma field_strength_default w dicom_path output_path dcm v e :
  ready w dicom_path output_path dcm ->
  dcm !! "MagneticFieldStrength" = Some v ->
  py_float v = inl e ->
  fst (extract_metadata dicom_path output_path w) = Ok 0 /\
  (exists doc,
     document_at (snd (extract_metadata dicom_path output_path w)) output_path = Some doc /\
     dict_get "fieldStrength" doc = Some (JFloat three_point_zero)) /\
  In field_strength_warning (stdout (snd (extract_metadata dicom_path output_path w))).
Proof.
  intros Hready Hv He. destruct (ready_run _ _ _ _ Hready) as [Hret Hdoc].
  split; [exact Hret |]. split.
  - exists (metadata_of dcm). split; [exact Hdoc |].
    by rewrite get_field_strength, Hv, He.
  - rewrite (ready_result _ _ _ _ Hready).
    simpl. rewrite printed_of_steps. unfold set_field_strength.
    rewrite Hv, He. simpl. apply in_or_app. right. simpl. tauto.
Qed.


(** ** C1: the default field strength *)




(** ** C2: numbers of the document *)


(** A no-break space before "nan" is stripped like a space, so the value
    is NaN and the record is not one whose conversions are finite; a value
    on which [float] raises is. *)
Example finite_conv_beyond_ascii :
  finite_conv (VStr (encode 160 +:+ "nan")) = false /\
  finite_conv (VStr (encode 160 +:+ "inf")) = false /\
  finite_conv (VStr (encode 28 +:+ "nan")) = true /\
  py_float (VStr (encode 28 +:+ "nan")) = inl ValueError.
Proof. repeat split; by vm_compute. Qed.



(** ** The two handlers *)

Section Handlers.



Variable dcm : dataset.










End Handlers.

(** ** C5: pydicom is not installed *)

(** The run of the claim, evaluated: without pydicom, on an output path that
    takes the fallback, the document is written and the call ends in
    [SystemExit] with code 1; it returns nothing.  When the path does not
    open, or opens on a device without room, an exception leaves the handler
    and no document is there. *)
Lemma missing_pydicom_runs :
  fst (extract_metadata "scan.dcm" "out.json" no_pydicom_world) = SystemExit 1 /\
  fst (extract_metadata "scan.dcm" "out.json" no_pydicom_world) <> Ok 1 /\
  document_at (snd (extract_metadata "scan.dcm" "out.json" no_pydicom_world)) "out.json"
  = Some import_fallback /\
  fst (extract_metadata "scan.dcm" "out.json" (read_only no_pydicom_world))
  = Raise (Exception "[Errno 13] Permission denied: 'out.json'") /\
  files (snd (extract_metadata "scan.dcm" "out.json" (read_only no_pydicom_world)))
    !! "out.json" = None /\
  fst (extract_metadata "scan.dcm" "out.json" (full_disk no_pydicom_world))
  = Raise (Exception "[Errno 28] No space left on device") /\
  files (snd (extract_metadata "scan.dcm" "out.json" (full_disk no_pydicom_world)))
    !! "out.json" = Some (Partial import_fallback).
Proof. repeat split; by vm_compute. Qed.

(** C5.  The code departs from the claim in how the call ends.  When
    pydicom is not installed, and the output path opens and takes the
    fallback document, [extract_metadata] dumps exactly the document
    manufacturer "Unknown", fieldStrength 3, modelName "Unknown", error
    "pydicom module not installed" to the output path, as claimed; but it
    returns no code to its caller: line 148 is
    [exit(1)], which raises [SystemExit] with code 1, where the other two
    paths [return 0] and [return 2] for the [sys.exit(...)] of the
    caller. *)
Theorem missing_pydicom_writes_fallback_and_exits w dicom_path output_path :
  pydicom_installed w = false ->
  open_error w output_path = None ->
  write_error w output_path import_fallback = None ->
  fst (extract_metadata dicom_path output_path w) = SystemExit 1 /\
  (forall code, fst (extract_metadata dicom_path output_path w) <> Ok code) /\
  exit_status (fst (extract_metadata dicom_path output_path w)) = 1 /\
  document_at (snd (extract_metadata dicom_path output_path w)) output_path
  = Some [("manufacturer", JStr "Unknown");
          ("fieldStrength", JInt 3);
          ("modelName", JStr "Unknown");
          ("error", JStr "pydicom module not installed")].
Proof.
  intros Hpy Hopen Hwrite.
  destruct (extract_metadata_spec w dicom_path output_path); try congruence.
  simpl. rewrite document_at_written. by repeat split.
Qed.

Lemma missing_pydicom_writes_fallback_and_exits_witness :
  pydicom_installed no_pydicom_world = false /\
  open_error no_pydicom_world "out.json" = None /\
  write_error no_pydicom_world "out.json" import_fallback = None /\
  fst (extract_metadata "scan.dcm" "out.json" no_pydicom_world) = SystemExit 1.
Proof.
  split; [reflexivity |]. split; [reflexivity |]. split; [reflexivity |].
  exact (proj1 (missing_pydicom_writes_fallback_and_exits
                  no_pydicom_world "scan.dcm" "out.json" eq_refl eq_refl eq_refl)).
Defined.

(** ** C6: any other exception *)




(** ** C7: a document at the output path *)

(** C7, the counterexample.  With an output path that cannot be opened no
    file exists there after the run; on a device without room the path
    opens, both writes raise and what is left is no JSON document; and a
    record whose SliceThickness reads "nan" leaves a document that is not
    valid JSON. *)
Lemma no_file_or_invalid_json :
  (fst (extract_metadata "scan.dcm" "out.json" (read_only (scanner_world sola_record)))
   = Raise (Exception "[Errno 13] Permission denied: 'out.json'") /\
   files (snd (extract_metadata "scan.dcm" "out.json"
                 (read_only (scanner_world sola_record)))) !! "out.json" = None) /\
  (open_error (full_disk (scanner_world sola_record)) "out.json" = None /\
   fst (extract_metadata "scan.dcm" "out.json" (full_disk (scanner_world sola_record)))
   = Raise (Exception "[Errno 28] No space left on device") /\
   document_at (snd (extract_metadata "scan.dcm" "out.json"
                       (full_disk (scanner_world sola_record)))) "out.json" = None) /\
  (fst (extract_metadata "scan.dcm" "out.json" (scanner_world nan_record)) = Ok 0 /\
   document_at (snd (extract_metadata "scan.dcm" "out.json" (scanner_world nan_record)))
     "out.json" = Some [("sliceThickness", JFloat FNaN)] /\
   dict_valid [("sliceThickness", JFloat FNaN)] = false).
Proof. repeat split; by vm_compute. Qed.

(** C7, amended.  Provided the output path can be opened for writing and
    takes what is written to it, every call ends on one of the three exit
    paths (return 0, return 2, exit 1) and leaves a JSON document at the
    output path; the document is valid JSON on both fallback paths, and on
    the success path when no conversion of an attribute value of the record
    gives NaN or an infinity. *)
Theorem output_document_when_writable w dicom_path output_path :
  writable w output_path ->
  exists doc,
    document_at (snd (extract_metadata dicom_path output_path w)) output_path = Some doc /\
    (fst (extract_metadata dicom_path output_path w) = Ok 0 \/
     fst (extract_metadata dicom_path output_path w) = Ok 2 \/
     fst (extract_metadata dicom_path output_path w) = SystemExit 1) /\
    (fst (extract_metadata dicom_path output_path w) <> Ok 0 -> dict_valid doc = true) /\
    (forall dcm, files w !! dicom_path = Some (Dicom dcm) ->
                 finite_record dcm -> dict_valid doc = true).
Proof.
  intros [Hopen Hwrite].
  destruct (extract_metadata_spec w dicom_path output_path)
    as [dcm Hpy Hfile _ _ | | ? ? ? ? ? Hno ? | ? ? ? ? ? ? Hno ? | e Hpy Hread _ _
        | | ? ? ? ? ? Hno | Hpy _ _ | | ? ? ? Hno];
    try congruence; try (by rewrite Hwrite in Hno); simpl.
  - exists (metadata_of dcm). rewrite document_at_written.
    split; [done |]. split; [by left |]. split; [done |].
    intros dcm' Hfile' Hfin. assert (dcm' = dcm) as -> by congruence.
    by apply metadata_valid.
  - exists (error_fallback e). rewrite document_at_written.
    split; [done |]. split; [right; by left |]. by split.
  - exists import_fallback. rewrite document_at_written.
    split; [done |]. split; [right; by right |]. by split.
Qed.

Lemma output_document_when_writable_witness :
  writable corrupt_world "out.json" /\
  exists doc,
    document_at (snd (extract_metadata "scan.dcm" "out.json" corrupt_world)) "out.json"
    = Some doc.
Proof.
  assert (H : writable corrupt_world "out.json") by (by split).
  split; [exact H |].
  destruct (output_document_when_writable corrupt_world "scan.dcm" "out.json" H)
    as (doc & Hdoc & _).
  by exists doc.
Defined.

(** ** C8: the command line *)



(** ** C9: running twice *)

Section Determinism.

Variables dicom_path output_path : string.

(** What a run does depends on the world only through four things:
    whether pydicom is installed, the input file, whether the output path
    opens, and which writes to it complete.  Either the output path does
    not open and nothing is written on both sides, or the same content is
    left at the output path. *)
Lemma extract_agree w w' :
  pydicom_installed w = pydicom_installed w' ->
  files w !! dicom_path = files w' !! dicom_path ->
  open_error w output_path = open_error w' output_path ->
  write_error w output_path = write_error w' output_path ->
  fst (extract_metadata dicom_path output_path w)
  = fst (extract_metadata dicom_path output_path w') /\
  ((open_error w output_path <> None /\
    files (snd (extract_metadata dicom_path output_path w)) = files w /\
    files (snd (extract_metadata dicom_path output_path w')) = files w') \/
   (exists content,
      files (snd (extract_metadata dicom_path output_path w)) !! output_path
      = Some content /\
      files (snd (extract_metadata dicom_path output_path w')) !! output_path
      = Some content)).
Proof.
  intros Hpy Hfile Hopen Hwrite.
  assert (Hread : fst (dcmread dicom_path w) = fst (dcmread dicom_path w')).
  { unfold dcmread. rewrite Hfile.
    by destruct (files w' !! dicom_path) as [[dcm | msg | doc | doc] |]. }
  destruct (extract_metadata_spec w dicom_path output_path)
    as [dcm Hp Hf Ho Hw | dcm msg Hp Hf Ho | dcm msg Hp Hf Ho Hw Hh
        | dcm msg msg2 Hp Hf Ho Hw Hh | e Hp Hr Ho Hw | e msg Hp Hr Ho
        | e msg Hp Hr Ho Hw | Hp Ho Hw | msg Hp Ho | msg Hp Ho Hw];
    destruct (extract_metadata_spec w' dicom_path output_path)
      as [dcm' Hp' Hf' Ho' Hw' | dcm' msg' Hp' Hf' Ho' | dcm' msg' Hp' Hf' Ho' Hw' Hh'
          | dcm' msg' msg2' Hp' Hf' Ho' Hw' Hh' | e' Hp' Hr' Ho' Hw' | e' msg' Hp' Hr' Ho'
          | e' msg' Hp' Hr' Ho' Hw' | Hp' Ho' Hw' | msg' Hp' Ho' | msg' Hp' Ho' Hw'];
    try congruence;
    try (apply dcmread_dicom in Hf; congruence);
    try (apply dcmread_dicom in Hf'; congruence);
    try (assert (dcm' = dcm) as -> by congruence);
    try (assert (e' = e) as -> by congruence);
    try congruence;
    try (assert (msg' = msg) as -> by congruence);
    try congruence;
    try (assert (msg2' = msg2) as -> by congruence);
    simpl; (split; [done |]);
    first [ left; split; [congruence | done]
          | right; eexists; by rewrite !lookup_insert_eq ].
Qed.

(** A run changes neither the installed modules nor what can be opened or
    written. *)
Lemma extract_preserves w :
  pydicom_installed (snd (extract_metadata dicom_path output_path w))
  = pydicom_installed w /\
  open_error (snd (extract_metadata dicom_path output_path w)) = open_error w /\
  write_error (snd (extract_metadata dicom_path output_path w)) = write_error w.
Proof. by destruct (extract_metadata_spec w dicom_path output_path). Qed.

End Determinism.

(** C9.  Run [extract_metadata] and then run it again, on the same paths, in
    the world the first run left.  If the input file is still the one the
    first run read, the second run ends the same way (same return code, same
    exit or exception) and leaves at the output path exactly what the first
    run left there. *)
Theorem rerun_is_deterministic w dicom_path output_path :
  files (snd (extract_metadata dicom_path output_path w)) !! dicom_path
  = files w !! dicom_path ->
  fst (extract_metadata dicom_path output_path
         (snd (extract_metadata dicom_path output_path w)))
  = fst (extract_metadata dicom_path output_path w) /\
  files (snd (extract_metadata dicom_path output_path
                (snd (extract_metadata dicom_path output_path w)))) !! output_path
  = files (snd (extract_metadata dicom_path output_path w)) !! output_path.
Proof.
  intros Hsame.
  destruct (extract_preserves dicom_path output_path w) as (Hpy & Hopen & Hwrite).
  destruct (extract_agree dicom_path output_path w
              (snd (extract_metadata dicom_path output_path w)))
    as [Hret [(_ & _ & Hfiles) | (content & H1 & H2)]]; try done.
  - by rewrite Hopen.
  - by rewrite Hwrite.
  - split; [done |]. by rewrite Hfiles.
  - split; [done |]. by rewrite H1, H2.
Qed.

Lemma rerun_is_deterministic_witness :
  files (snd (extract_metadata "scan.dcm" "out.json" (scanner_world sola_record)))
    !! "scan.dcm"
  = files (scanner_world sola_record) !! "scan.dcm" /\
  fst (extract_metadata "scan.dcm" "out.json"
         (snd (extract_metadata "scan.dcm" "out.json" (scanner_world sola_record))))
  = fst (extract_metadata "scan.dcm" "out.json" (scanner_world sola_record)).
Proof.
  assert (H : files (snd (extract_metadata "scan.dcm" "out.json"
                            (scanner_world sola_record))) !! "scan.dcm"
              = files (scanner_world sola_record) !! "scan.dcm").
  { by vm_compute. }
  split; [exact H |].
  exact (proj1 (rerun_is_deterministic _ _ _ H)).
Defined.

(** ** C10: the key [error] *)

Lemma metadata_has_no_error dcm : dict_get "error" (metadata_of dcm) = None.
Proof. rewrite metadata_of_steps. by skip_steps. Qed.

(** C10.  Both fallback documents hold the key [error]; a call that returns
    0 leaves at the output path a document without it; and whenever the call
    comes to its end, by [return] or by [exit] and not by an exception, the
    document left at the output path holds the key [error] exactly when the
    call did not return 0. *)
Theorem error_key_marks_fallback w dicom_path output_path :
  has_key "error" import_fallback = true /\
  (forall e, has_key "error" (error_fallback e) = true) /\
  (fst (extract_metadata dicom_path output_path w) = Ok 0 ->
   exists doc,
     document_at (snd (extract_metadata dicom_path output_path w)) output_path = Some doc /\
     has_key "error" doc = false) /\
  ((forall e, fst (extract_metadata dicom_path output_path w) <> Raise e) ->
   exists doc,
     document_at (snd (extract_metadata dicom_path output_path w)) output_path = Some doc /\
     (has_key "error" doc = true <->
      fst (extract_metadata dicom_path output_path w) <> Ok 0)).
Proof.
  split; [done |]. split; [done |].
  destruct (extract_metadata_spec w dicom_path output_path)
    as [dcm Hp Hf Ho Hw | dcm msg Hp Hf Ho | dcm msg Hp Hf Ho Hw Hh
        | dcm msg msg2 Hp Hf Ho Hw Hh | e Hp Hr Ho Hw | e msg Hp Hr Ho
        | e msg Hp Hr Ho Hw | Hp Ho Hw | msg Hp Ho | msg Hp Ho Hw];
    simpl; (split; [try done |]); intros Hends;
    try (by destruct (Hends (Exception msg)));
    try (by destruct (Hends (Exception msg2))).
  - exists (metadata_of dcm). rewrite document_at_written. split; [done |].
    unfold has_key. by rewrite metadata_has_no_error.
  - exists (metadata_of dcm). rewrite document_at_written. split; [done |].
    unfold has_key. rewrite metadata_has_no_error. by split.
  - exists (error_fallback msg). rewrite document_at_written. by repeat split.
  - exists (error_fallback e). rewrite document_at_written. by repeat split.
  - exists import_fallback. rewrite document_at_written. by repeat split.
Qed.

Lemma error_key_marks_fallback_witness :
  fst (extract_metadata "scan.dcm" "out.json" (scanner_world flair_record)) = Ok 0 /\
  exists doc,
    document_at (snd (extract_metadata "scan.dcm" "out.json" (scanner_world flair_record)))
      "out.json" = Some doc /\
    has_key "error" doc = false.
Proof.
  assert (H : fst (extract_metadata "scan.dcm" "out.json" (scanner_world flair_record))
              = Ok 0).
  { by vm_compute. }
  split; [exact H |].
  exact (proj1 (proj2 (proj2
           (error_key_marks_fallback (scanner_world flair_record) "scan.dcm" "out.json")))
           H).
Defined.

(** * Further properties of the script *)

(** ** The fields coerced by [safe_value] *)

Lemma get_set_safe_eq (dcm : dataset) attr key md :
  dict_get key (set_safe dcm attr key md) =
  match dcm !! attr with
  | Some v => Some (safe_value v)
  | None => dict_get key md
  end.
Proof.
  unfold set_safe. destruct (dcm !! attr); [| done]. apply dict_get_set_eq.
Qed.

Lemma get_safe_field (dcm : dataset) attr key :
  In (attr, key) safe_fields ->
  dict_get key (metadata_of dcm) = safe_value <$> (dcm !! attr).
Proof.
  intros Hin. rewrite metadata_of_steps. simpl in Hin.
  repeat (destruct Hin as [[= <- <-] | Hin];
          [skip_steps; rewrite get_set_safe_eq; skip_steps;
           by destruct (dcm !! _) |]).
  destruct Hin.
Qed.

(** X1.  For each attribute of lines 41-44 and 53-68 the dict holds its key
    exactly when the record has the attribute, with [safe_value] of the
    attribute as value, whatever the value is: a string that reads as a
    number is stored as that number, a string that does not as itself. *)
Theorem safe_field_lookup (dcm : dataset) attr key :
  In (attr, key) safe_fields ->
  dict_get key (metadata_of dcm) = safe_value <$> (dcm !! attr) /\
  (has_key key (metadata_of dcm) = true <-> is_Some (dcm !! attr)) /\
  (forall s, dcm !! attr = Some (VStr s) ->
     dict_get key (metadata_of dcm) =
     Some (match parse_float true s with Some f => JFloat f | None => JStr s end)).
Proof.
  intros Hin. pose proof (get_safe_field dcm attr key Hin) as Hget.
  split; [exact Hget |]. split.
  - unfold has_key. rewrite Hget.
    destruct (dcm !! attr); simpl; split; try done; by intros [? ?].
  - intros s Hs. rewrite Hget, Hs. simpl. by destruct (parse_float true s).
Qed.

Lemma safe_field_lookup_witness :
  In ("ImageType", "imageType") safe_fields /\
  dict_get "imageType" (metadata_of full_record)
  = Some (JList [JStr "ORIGINAL"; JStr "PRIMARY"]).
Proof.
  assert (H : In ("ImageType", "imageType") safe_fields) by (simpl; tauto).
  split; [exact H |].
  exact (proj1 (safe_field_lookup full_record "ImageType" "imageType" H)).
Defined.

(** ** The order of the keys *)

(** A string is not among the strings of a list that is written out. *)
Ltac not_in_keys :=
  simpl;
  let H := fresh in
  intros H;
  repeat (apply elem_of_cons in H as [H | H]; [discriminate H |]);
  by apply elem_of_nil in H.

Section KeyOrder.

Lemma keys_dict_set_old key value d :
  key ∈ keys d -> keys (dict_set key value d) = keys d.
Proof.
  unfold keys. induction d as [| [k v] d IH]; simpl.
  - by intros ?%elem_of_nil.
  - intros Hin. destruct (String.eqb_spec k key) as [-> | Hne]; [done |].
    simpl. f_equal. apply IH.
    apply elem_of_cons in Hin as [-> | Hin]; [done | exact Hin].
Qed.

Lemma keys_dict_set_fresh key value d :
  key ∉ keys d -> keys (dict_set key value d) = (keys d ++ [key])%list.
Proof.
  unfold keys. induction d as [| [k v] d IH]; simpl; [done |].
  intros Hnot. apply not_elem_of_cons in Hnot as [Hne Hnot].
  destruct (String.eqb_spec k key) as [-> | _]; [done |].
  simpl. f_equal. by apply IH.
Qed.

Lemma has_key_keys key d : has_key key d = true <-> key ∈ keys d.
Proof.
  unfold has_key, keys. induction d as [| [k v] d IH]; simpl.
  - split; [done | by intros ?%elem_of_nil].
  - rewrite elem_of_cons. destruct (String.eqb_spec k key) as [-> | Hne].
    + split; [by left | done].
    + rewrite IH. split; [by right | by intros [-> | ?]].
Qed.

(** Setting a key that the keys so far leave free puts it last. *)
Lemma dict_set_ordered key value d order :
  keys d `sublist_of` order -> key ∉ order ->
  keys (dict_set key value d) `sublist_of` (order ++ [key])%list.
Proof.
  intros Hsub Hnot. rewrite keys_dict_set_fresh.
  - by apply sublist_app.
  - intros Hin. apply Hnot. by eapply elem_of_sublist.
Qed.

Lemma dict_unset_ordered key d order :
  keys d `sublist_of` order -> keys d `sublist_of` (order ++ [key])%list.
Proof. apply sublist_inserts_r. Qed.

Variable dcm : dataset.

Lemma set_safe_ordered attr key md order :
  keys md `sublist_of` order -> key ∉ order ->
  keys (set_safe dcm attr key md) `sublist_of` (order ++ [key])%list.
Proof.
  intros. unfold set_safe. destruct (dcm !! attr).
  - by apply dict_set_ordered.
  - by apply dict_unset_ordered.
Qed.

Lemma set_float_ordered attr key md order :
  keys md `sublist_of` order -> key ∉ order ->
  keys (set_float dcm attr key md) `sublist_of` (order ++ [key])%list.
Proof.
  intros. unfold set_float. destruct (dcm !! attr) as [v |].
  - destruct (py_float v).
    + by apply dict_unset_ordered.
    + by apply dict_set_ordered.
  - by apply dict_unset_ordered.
Qed.

Lemma set_field_strength_ordered md order :
  keys md `sublist_of` order -> "fieldStrength" ∉ order ->
  keys (fst (set_field_strength dcm md)) `sublist_of` (order ++ ["fieldStrength"])%list.
Proof.
  intros. unfold set_field_strength.
  destruct (dcm !! "MagneticFieldStrength") as [v |].
  - destruct (py_float v); simpl; by apply dict_set_ordered.
  - by apply dict_unset_ordered.
Qed.

(** The two assignments of [is3D] share one place. *)
Lemma detect_3d_ordered md order :
  keys md `sublist_of` order -> "is3D" ∉ order ->
  keys (detect_3d dcm md) `sublist_of` (order ++ ["is3D"])%list.
Proof.
  intros Hsub Hnot. unfold detect_3d.
  assert (Htwice : forall v v',
             keys (dict_set "is3D" v (dict_set "is3D" v' md))
             = keys (dict_set "is3D" v' md)).
  { intros v v'. apply keys_dict_set_old, has_key_keys.
    unfold has_key. by rewrite dict_get_set_eq. }
  repeat match goal with
         | |- context [match ?x with _ => _ end] => destruct x
         end;
    rewrite ?Htwice;
    first [ by apply dict_set_ordered | by apply dict_unset_ordered ].
Qed.

Lemma set_pixel_spacing_ordered md order :
  keys md `sublist_of` order -> "pixelSpacing" ∉ order ->
  keys (set_pixel_spacing dcm md) `sublist_of` (order ++ ["pixelSpacing"])%list.
Proof.
  intros. unfold set_pixel_spacing.
  repeat match goal with
         | |- context [match ?x with _ => _ end] => destruct x
         end;
    first [ by apply dict_set_ordered | by apply dict_unset_ordered ].
Qed.

Lemma set_magnetom_sola_ordered md order :
  keys md `sublist_of` order -> "isMagnetomSola" ∉ order ->
  keys (set_magnetom_sola dcm md) `sublist_of` (order ++ ["isMagnetomSola"])%list.
Proof.
  intros. unfold set_magnetom_sola.
  repeat match goal with
         | |- context [match ?x with _ => _ end] => destruct x
         end;
    first [ by apply dict_set_ordered | by apply dict_unset_ordered ].
Qed.

Lemma metadata_keys_sublist : keys (metadata_of dcm) `sublist_of` key_order.
Proof.
  rewrite metadata_of_steps.
  change key_order with
    (((((((((((((((((([] ++ ["manufacturer"]) ++ ["modelName"]) ++
      ["fieldStrength"]) ++ ["protocolName"]) ++ ["seriesDescription"]) ++
      ["sequenceName"]) ++ ["scanningSequence"]) ++ ["sequenceVariant"]) ++
      ["imageType"]) ++ ["acquisitionType"]) ++ ["is3D"]) ++
      ["sliceThickness"]) ++ ["TR"]) ++ ["TE"]) ++ ["flipAngle"]) ++
      ["spacingBetweenSlices"]) ++ ["pixelSpacing"]) ++ ["isMagnetomSola"])%list.
  repeat first
    [ apply set_magnetom_sola_ordered | apply set_pixel_spacing_ordered
    | apply set_float_ordered | apply detect_3d_ordered
    | apply set_safe_ordered | apply set_field_strength_ordered ];
    try not_in_keys.
  apply sublist_nil_l.
Qed.

End KeyOrder.

(** X2.  The keys of the dict built by lines 24-127 are some of the eighteen
    keys of [key_order], each at most once and in that order: a second
    assignment ([is3D], lines 72 and 89) never moves or repeats a key, and no
    other key is ever set. *)
Theorem metadata_keys_in_order (dcm : dataset) :
  keys (metadata_of dcm) `sublist_of` key_order /\
  NoDup (keys (metadata_of dcm)) /\
  (forall key, has_key key (metadata_of dcm) = true -> In key key_order).
Proof.
  pose proof (metadata_keys_sublist dcm) as Hsub.
  split; [exact Hsub |]. split.
  - eapply sublist_NoDup; [| exact Hsub].
    unfold key_order.
    repeat (apply NoDup_cons_2; [not_in_keys |]). apply NoDup_nil_2.
  - intros key Hkey%has_key_keys. apply list_elem_of_In.
    by eapply elem_of_sublist.
Qed.

(** ** What [safe_value] returns *)

(** X3.  [safe_value] (lines 27-38) returns floats, strings and lists of
    such only, at every depth of a nested sequence: never a boolean, an
    integer or [None], so [json.dump] meets no value it cannot serialise.  A
    sequence becomes a list of the same length, bytes always become a string,
    and [None] becomes the string "None". *)
Theorem safe_value_shape :
  (forall v, float_or_str (safe_value v) = true) /\
  (forall items text,
     exists out, safe_value (VSeq items text) = JList out /\
                 length out = length items) /\
  (forall b, exists s, safe_value (VBytes b) = JStr s) /\
  safe_value VNone = JStr "None".
Proof.
  split; [| split; [| split]].
  - fix IH 1. intros [s | b | f t | | items t]; simpl; try done.
    + by destruct (parse_float true s).
    + induction items as [| x items IHitems]; simpl; [done |].
      by rewrite (IH x), IHitems.
  - intros items text. exists (List.map safe_value items).
    split; [done |]. apply length_map.
  - intros b. by eexists.
  - done.
Qed.

(** ** What a call prints *)

Lemma last_two {A} (l : list A) a b : last (l ++ [a; b]) = Some b.
Proof. change [a; b] with ([a] ++ [b])%list. by rewrite app_assoc, last_snoc. Qed.

Lemma last_three {A} (l : list A) a b c : last (l ++ [a; b; c]) = Some c.
Proof. change [a; b; c] with ([a; b] ++ [c])%list. by rewrite app_assoc, last_snoc. Qed.

(** X4.  A call of [extract_metadata] only appends to standard output, and
    appends at least one line; the last line it prints is "SUCCESS" exactly
    when it returns 0. *)
Theorem last_line_is_success_iff_returns_0 w dicom_path output_path :
  exists lines,
    stdout (snd (extract_metadata dicom_path output_path w)) = (stdout w ++ lines)%list /\
    lines <> [] /\
    (last lines = Some "SUCCESS" <->
     fst (extract_metadata dicom_path output_path w) = Ok 0).
Proof.
  destruct (extract_metadata_spec w dicom_path output_path);
    simpl; eexists; (split; [reflexivity |]); (split; [done |]);
    rewrite ?app_comm_cons, ?last_two, ?last_three; simpl; split; try done;
    by intros [= ?].
Qed.

(** ** What a call touches *)

(** X5.  What a call of [extract_metadata] leaves at the output path.  When
    it returns or exits, the output path holds a complete document.  When
    it ends in an exception, either the output path did not open, the
    exception is the one [open] raised and every file is as it was; or the
    path opened, the exception is the one the last writing raised, and the
    output path is left with an incomplete file and no document. *)
Theorem what_is_left_at_the_output_path w dicom_path output_path :
  ((forall e, fst (extract_metadata dicom_path output_path w) <> Raise e) ->
   exists doc,
     files (snd (extract_metadata dicom_path output_path w)) !! output_path
     = Some (Json doc)) /\
  (forall e, fst (extract_metadata dicom_path output_path w) = Raise e ->
     exists msg,
       e = Exception msg /\
       ((open_error w output_path = Some msg /\
         files (snd (extract_metadata dicom_path output_path w)) = files w) \/
        (open_error w output_path = None /\
         exists doc,
           write_error w output_path doc = Some msg /\
           files (snd (extract_metadata dicom_path output_path w)) !! output_path
           = Some (Partial doc) /\
           document_at (snd (extract_metadata dicom_path output_path w)) output_path
           = None))).
Proof.
  destruct (extract_metadata_spec w dicom_path output_path)
    as [dcm Hp Hf Ho Hw | dcm msg Hp Hf Ho | dcm msg Hp Hf Ho Hw Hh
        | dcm msg msg2 Hp Hf Ho Hw Hh | e Hp Hr Ho Hw | e msg Hp Hr Ho
        | e msg Hp Hr Ho Hw | Hp Ho Hw | msg Hp Ho | msg Hp Ho Hw];
    simpl; (split; [intros Hends | intros e0 He0]);
    try discriminate He0;
    try (by destruct (Hends (Exception msg)));
    try (by destruct (Hends (Exception msg2)));
    try (eexists; by rewrite lookup_insert_eq);
    injection He0 as <-; eexists; (split; [reflexivity |]);
    first [ left; by split
          | right; split; [done |]; eexists; unfold document_at; simpl;
            rewrite lookup_insert_eq; by repeat split ].
Qed.

(** ** How a call ends *)


(** ** The process exit status *)


(** ** Attributes the script does not list *)

Section Agreement.

Variables dcm dcm' : dataset.

Lemma set_safe_agree attr key md :
  dcm !! attr = dcm' !! attr ->
  set_safe dcm attr key md = set_safe dcm' attr key md.
Proof. intros H. unfold set_safe. by rewrite H. Qed.

Lemma set_float_agree attr key md :
  dcm !! attr = dcm' !! attr ->
  set_float dcm attr key md = set_float dcm' attr key md.
Proof. intros H. unfold set_float. by rewrite H. Qed.

Lemma set_field_strength_agree md :
  dcm !! "MagneticFieldStrength" = dcm' !! "MagneticFieldStrength" ->
  set_field_strength dcm md = set_field_strength dcm' md.
Proof. intros H. unfold set_field_strength. by rewrite H. Qed.

Lemma detect_3d_agree md :
  dcm !! "Private_0019_10e0" = dcm' !! "Private_0019_10e0" ->
  dcm !! "SeriesDescription" = dcm' !! "SeriesDescription" ->
  dcm !! "SequenceName" = dcm' !! "SequenceName" ->
  detect_3d dcm md = detect_3d dcm' md.
Proof. intros H1 H2 H3. unfold detect_3d. by rewrite H1, H2, H3. Qed.

Lemma set_pixel_spacing_agree md :
  dcm !! "PixelSpacing" = dcm' !! "PixelSpacing" ->
  set_pixel_spacing dcm md = set_pixel_spacing dcm' md.
Proof. intros H. unfold set_pixel_spacing. by rewrite H. Qed.

Lemma set_magnetom_sola_agree md :
  dcm !! "ManufacturerModelName" = dcm' !! "ManufacturerModelName" ->
  set_magnetom_sola dcm md = set_magnetom_sola dcm' md.
Proof. intros H. unfold set_magnetom_sola. by rewrite H. Qed.

End Agreement.

(** X8.  The dict and the printed lines are a function of the seventeen
    attributes that lines 24-127 name: two records that agree on those give
    the same dict and the same warning, whatever else they hold. *)
Theorem unlisted_attributes_are_ignored (dcm dcm' : dataset) :
  (forall attr, In attr used_attributes -> dcm !! attr = dcm' !! attr) ->
  extract_fields dcm = extract_fields dcm'.
Proof.
  intros Hagree.
  assert (Hsafe : forall attr key md, In attr used_attributes ->
            set_safe dcm attr key md = set_safe dcm' attr key md).
  { intros. by apply set_safe_agree, Hagree. }
  assert (Hfloat : forall attr key md, In attr used_attributes ->
            set_float dcm attr key md = set_float dcm' attr key md).
  { intros. by apply set_float_agree, Hagree. }
  assert (Hstrength : forall md,
            set_field_strength dcm md = set_field_strength dcm' md).
  { intros. apply set_field_strength_agree, Hagree. simpl. tauto. }
  apply injective_projections.
  - change (metadata_of dcm = metadata_of dcm'). rewrite !metadata_of_steps.
    rewrite (set_magnetom_sola_agree dcm dcm') by (apply Hagree; simpl; tauto).
    rewrite (set_pixel_spacing_agree dcm dcm') by (apply Hagree; simpl; tauto).
    rewrite !Hfloat by (simpl; tauto).
    rewrite (detect_3d_agree dcm dcm') by (apply Hagree; simpl; tauto).
    rewrite !Hsafe by (simpl; tauto).
    rewrite Hstrength.
    reflexivity.
  - rewrite !printed_of_steps.
    rewrite !Hsafe by (simpl; tauto).
    by rewrite Hstrength.
Qed.

Lemma unlisted_attributes_are_ignored_witness :
  (forall attr, In attr used_attributes ->
     (<["PatientName" := VStr "DOE^JOHN"]> full_record : dataset) !! attr
     = full_record !! attr) /\
  extract_fields (<["PatientName" := VStr "DOE^JOHN"]> full_record)
  = extract_fields full_record.
Proof.
  assert (H : forall attr, In attr used_attributes ->
            (<["PatientName" := VStr "DOE^JOHN"]> full_record : dataset) !! attr
            = full_record !! attr).
  { intros attr Hin. apply lookup_insert_ne. intros <-.
    simpl in Hin. repeat (destruct Hin as [[=] | Hin]). destruct Hin. }
  split; [exact H |].
  exact (unlisted_attributes_are_ignored _ _ H).
Defined.

(** ** Pixel spacing *)

Lemma floats_of_spec items :
  match floats_of items with
  | Some fs => Forall2 (fun x f => py_float x = inr f) items fs
  | None => exists x e, In x items /\ py_float x = inl e
  end.
Proof.
  induction items as [| x items IH]; simpl; [by constructor |].
  destruct (py_float x) as [e | f] eqn:Hx.
  - exists x, e. split; [by left | done].
  - destruct (floats_of items) as [fs |].
    + by constructor.
    + destruct IH as (y & e & Hin & Hy). exists y, e. split; [by right | done].
Qed.

(** X9.  Lines 119-123.  A PixelSpacing that is a single number, or [None],
    is omitted, although the number itself would convert: the list
    comprehension cannot iterate it.  For a sequence the key, when present,
    holds one float per item, in order, each the conversion of its item; it
    is absent exactly when some item does not convert; an empty sequence
    gives an empty list. *)
Theorem pixel_spacing_shape (dcm : dataset) :
  (forall f text, dcm !! "PixelSpacing" = Some (VNum f text) ->
     dict_get "pixelSpacing" (metadata_of dcm) = None) /\
  (dcm !! "PixelSpacing" = Some VNone ->
     dict_get "pixelSpacing" (metadata_of dcm) = None) /\
  (forall items text, dcm !! "PixelSpacing" = Some (VSeq items text) ->
     match dict_get "pixelSpacing" (metadata_of dcm) with
     | Some value =>
         exists fs, value = JList (List.map JFloat fs) /\
                    Forall2 (fun x f => py_float x = inr f) items fs
     | None => exists x e, In x items /\ py_float x = inl e
     end) /\
  (forall text, dcm !! "PixelSpacing" = Some (VSeq [] text) ->
     dict_get "pixelSpacing" (metadata_of dcm) = Some (JList [])).
Proof.
  rewrite get_pixel_spacing. repeat split.
  - by intros f text ->.
  - by intros ->.
  - intros items text ->. simpl.
    pose proof (floats_of_spec items) as Hspec.
    destruct (floats_of items) as [fs |]; [by exists fs | exact Hspec].
  - by intros text ->.
Qed.

Lemma pixel_spacing_shape_witness :
  full_record !! "PixelSpacing"
  = Some (VSeq [VNum (FFin false (1 # 2)) "0.5"; VNum (FFin false (1 # 2)) "0.5"] "[0.5, 0.5]") /\
  match dict_get "pixelSpacing" (metadata_of full_record) with
  | Some value =>
      exists fs, value = JList (List.map JFloat fs) /\
                 Forall2 (fun x f => py_float x = inr f)
                   [VNum (FFin false (1 # 2)) "0.5"; VNum (FFin false (1 # 2)) "0.5"] fs
  | None =>
      exists x e, In x [VNum (FFin false (1 # 2)) "0.5"; VNum (FFin false (1 # 2)) "0.5"] /\
                  py_float x = inl e
  end.
Proof.
  assert (H : full_record !! "PixelSpacing"
              = Some (VSeq [VNum (FFin false (1 # 2)) "0.5"; VNum (FFin false (1 # 2)) "0.5"]
                        "[0.5, 0.5]")).
  { by vm_compute. }
  split; [exact H |].
  exact (proj1 (proj2 (proj2 (pixel_spacing_shape full_record))) _ _ H).
Defined.

(** ** Field strength and its warning *)

(** X10.  Lines 45-50.  The dict has the key [fieldStrength] exactly when
    the record has MagneticFieldStrength.  The step prints nothing or the one
    warning line, and it prints the warning exactly when the attribute is
    present and [float] raises on it, which is exactly when the value stored
    is the default 3.0 in place of a converted float. *)
Theorem field_strength_and_warning (dcm : dataset) :
  (has_key "fieldStrength" (metadata_of dcm) = true <->
   is_Some (dcm !! "MagneticFieldStrength")) /\
  (snd (extract_fields dcm) = [] \/
   snd (extract_fields dcm) = [field_strength_warning]) /\
  (snd (extract_fields dcm) = [field_strength_warning] <->
   exists v e, dcm !! "MagneticFieldStrength" = Some v /\ py_float v = inl e) /\
  (forall v f, dcm !! "MagneticFieldStrength" = Some v -> py_float v = inr f ->
     dict_get "fieldStrength" (metadata_of dcm) = Some (JFloat f) /\
     snd (extract_fields dcm) = []).
Proof.
  unfold has_key. rewrite get_field_strength, printed_of_steps.
  unfold set_field_strength.
  destruct (dcm !! "MagneticFieldStrength") as [v |]; simpl.
  - destruct (py_float v) as [e | f] eqn:Hv; simpl; repeat split; try done;
      try tauto; try (by eexists);
      try (intros _; by exists v, e);
      try (by intros (? & ? & [= <-] & ?); congruence);
      try (simplify_eq; congruence).
  - repeat split; try done; try tauto;
      try (by intros [? ?]); try (by intros (? & ? & ? & ?)).
Qed.

(** ** A record with every attribute *)

(** X11.  When the record has the sixteen attributes of the table, the five
    float attributes convert and every item of the pixel spacing converts,
    the dict holds all sixteen keys of the table: nothing is dropped on the
    way.  ([is3D] and [isMagnetomSola] follow their own conditions.) *)
Theorem full_record_has_every_key (dcm : dataset) :
  (forall attr, In attr used_attributes -> attr <> "Private_0019_10e0" ->
     is_Some (dcm !! attr)) ->
  (forall attr key v, In (attr, key) float_fields -> dcm !! attr = Some v ->
     exists f, py_float v = inr f) ->
  (forall v, dcm !! "PixelSpacing" = Some v ->
     exists fs, (py_iter v ≫= floats_of) = Some fs) ->
  forall key, In key key_order -> key <> "is3D" -> key <> "isMagnetomSola" ->
    has_key key (metadata_of dcm) = true.
Proof.
  intros Hall Hfloat Hpix key Hin Hn3 Hns. unfold has_key.
  assert (Hsafe : forall attr k, In (attr, k) safe_fields ->
            match dict_get k (metadata_of dcm) with Some _ => true | None => false end
            = true).
  { intros attr k Hk. rewrite (get_safe_field dcm attr k Hk).
    assert (Hattr : is_Some (dcm !! attr)).
    { simpl in Hk.
      repeat (destruct Hk as [[= <- <-] | Hk];
              [apply Hall; [simpl; tauto | discriminate] |]).
      destruct Hk. }
    by destruct Hattr as [v ->]. }
  assert (Hnum : forall attr k, In (attr, k) float_fields ->
            match dict_get k (metadata_of dcm) with Some _ => true | None => false end
            = true).
  { intros attr k Hk. rewrite (get_float_field dcm attr k Hk).
    assert (Hattr : is_Some (dcm !! attr)).
    { pose proof Hk as Hk'. simpl in Hk'.
      repeat (destruct Hk' as [[= <- <-] | Hk'];
              [apply Hall; [simpl; tauto | discriminate] |]).
      destruct Hk'. }
    destruct Hattr as [v Hv]. rewrite Hv.
    by destruct (Hfloat attr k v Hk Hv) as [f ->]. }
  assert (Hstrength :
            match dict_get "fieldStrength" (metadata_of dcm) with
            | Some _ => true | None => false end = true).
  { rewrite get_field_strength.
    destruct (Hall "MagneticFieldStrength") as [v ->];
      [simpl; tauto | discriminate |].
    by destruct (py_float v). }
  assert (Hpixel :
            match dict_get "pixelSpacing" (metadata_of dcm) with
            | Some _ => true | None => false end = true).
  { rewrite get_pixel_spacing.
    destruct (Hall "PixelSpacing") as [v Hv]; [simpl; tauto | discriminate |].
    rewrite Hv. destruct (Hpix v Hv) as [fs Hfs].
    destruct (py_iter v) as [items |]; [| discriminate Hfs].
    simpl in Hfs. by rewrite Hfs. }
  set (md := metadata_of dcm) in *. clearbody md.
  simpl in Hin.
  repeat (destruct Hin as [<- | Hin];
          [first [ exact Hstrength
                 | exact Hpixel
                 | by destruct Hn3
                 | by destruct Hns
                 | eapply Hsafe; simpl;
                   solve [repeat first [left; reflexivity | right]]
                 | eapply Hnum; simpl;
                   solve [repeat first [left; reflexivity | right]] ] |]).
  destruct Hin.
Qed.

Lemma full_record_has_every_key_witness :
  In "TR" key_order /\
  has_key "TR" (metadata_of full_record) = true.
Proof.
  split; [simpl; tauto |].
  apply (full_record_has_every_key full_record).
  - intros attr Hin Hne. simpl in Hin.
    repeat (destruct Hin as [<- | Hin];
            [first [ by destruct Hne | vm_compute; by eexists ] |]).
    destruct Hin.
  - intros attr key v Hin Hv. simpl in Hin.
    repeat (destruct Hin as [[= <- <-] | Hin];
            [vm_compute in Hv; injection Hv as <-; by eexists |]).
    destruct Hin.
  - intros v Hv. vm_compute in Hv. injection Hv as <-. by eexists.
  - simpl. tauto.
  - discriminate.
  - discriminate.
Defined.

(** ** What [is3D] depends on *)

(** X12.  Whether the dict has [is3D] depends on three attributes only:
    Private_0019_10e0, SeriesDescription and SequenceName.  ImageType and
    MRAcquisitionType, stored under the heading "Additional fields for 3D
    sequence detection", take no part in it: a record whose
    MRAcquisitionType is "3D" has no [is3D] unless one of the three says
    so. *)
Theorem is3d_depends_on_three_attributes (dcm dcm' : dataset) :
  (dcm !! "Private_0019_10e0" = dcm' !! "Private_0019_10e0" ->
   dcm !! "SeriesDescription" = dcm' !! "SeriesDescription" ->
   dcm !! "SequenceName" = dcm' !! "SequenceName" ->
   dict_get "is3D" (metadata_of dcm) = dict_get "is3D" (metadata_of dcm')) /\
  (dcm !! "Private_0019_10e0" = None ->
   dcm !! "SeriesDescription" = None ->
   dcm !! "SequenceName" = None ->
   dict_get "is3D" (metadata_of dcm) = None).
Proof.
  rewrite !get_is3d. split.
  - by intros -> -> ->.
  - by intros -> -> ->.
Qed.

Lemma is3d_depends_on_three_attributes_witness :
  dict_get "is3D"
    (metadata_of (<["MRAcquisitionType" := VStr "3D"]> (∅ : dataset))) = None.
Proof.
  apply (proj2 (is3d_depends_on_three_attributes
                  (<["MRAcquisitionType" := VStr "3D"]> ∅) ∅));
    by vm_compute.
Defined.

(** ** The output file is overwritten *)

(** Two worlds that agree on pydicom, on the input file, on an output path
    that opens and on the writes that complete are left with the same
    content at the output path. *)
Lemma extract_agree_written dicom_path output_path w w' :
  pydicom_installed w = pydicom_installed w' ->
  files w !! dicom_path = files w' !! dicom_path ->
  open_error w output_path = open_error w' output_path ->
  write_error w output_path = write_error w' output_path ->
  open_error w output_path = None ->
  exists content,
    files (snd (extract_metadata dicom_path output_path w)) !! output_path
    = Some content /\
    files (snd (extract_metadata dicom_path output_path w')) !! output_path
    = Some content.
Proof.
  intros Hpy Hfile Hopen Hwrite Hnone.
  by destruct (extract_agree dicom_path output_path w w' Hpy Hfile Hopen Hwrite)
    as [_ [(Hsome & _) | Hsame]].
Qed.

(** X13.  What was at the output path before the call has no influence: with
    any file put there beforehand (the input path being another one), the
    call ends the same way and leaves the same content at the output path,
    provided the path opens for writing. *)
Theorem previous_output_is_overwritten w dicom_path output_path (old : file) :
  dicom_path <> output_path ->
  open_error w output_path = None ->
  fst (extract_metadata dicom_path output_path
         {| pydicom_installed := pydicom_installed w;
            files := <[output_path := old]> (files w);
            open_error := open_error w;
            write_error := write_error w;
            stdout := stdout w |})
  = fst (extract_metadata dicom_path output_path w) /\
  files (snd (extract_metadata dicom_path output_path
                {| pydicom_installed := pydicom_installed w;
                   files := <[output_path := old]> (files w);
                   open_error := open_error w;
                   write_error := write_error w;
                   stdout := stdout w |})) !! output_path
  = files (snd (extract_metadata dicom_path output_path w)) !! output_path.
Proof.
  intros Hne Hopen.
  set (w' := {| pydicom_installed := pydicom_installed w;
                files := <[output_path := old]> (files w);
                open_error := open_error w;
                write_error := write_error w;
                stdout := stdout w |}).
  assert (Hfile : files w' !! dicom_path = files w !! dicom_path).
  { subst w'. simpl. by rewrite lookup_insert_ne. }
  split.
  - by apply (extract_agree dicom_path output_path w' w).
  - destruct (extract_agree_written dicom_path output_path w' w)
      as (content & H1 & H2); try done.
    by rewrite H1, H2.
Qed.

Lemma previous_output_is_overwritten_witness :
  "scan.dcm" <> "out.json" /\
  open_error (scanner_world full_record) "out.json" = None /\
  fst (extract_metadata "scan.dcm" "out.json"
         {| pydicom_installed := true;
            files := <["out.json" := Corrupt "stale"]> (files (scanner_world full_record));
            open_error := always_writable;
            write_error := every_write_completes;
            stdout := [] |})
  = fst (extract_metadata "scan.dcm" "out.json" (scanner_world full_record)).
Proof.
  split; [done |]. split; [reflexivity |].
  exact (proj1 (previous_output_is_overwritten (scanner_world full_record)
                  "scan.dcm" "out.json" (Corrupt "stale")
                  ltac:(done) eq_refl)).
Defined.
